(** * Excel report generator: a shallow embedding of [report-generator.py]

    The development follows the Python source function by function.
    Python integers are unbounded and are modelled by [Z]; Python strings are
    modelled by [string], one character per code point, which is exact for
    the ASCII text the address arithmetic produces and consumes.  Calls into
    pandas and into the workbook writer are external to the program and are
    taken as parameters of the sections that use them. *)

From Stdlib Require Import ZArith Ascii String Lia.
From stdpp Require Import base option list gmap strings pretty.

Local Open Scope Z_scope.

(** ** Python string primitives used by the program *)

Module Py.

(** [chr(n)] for a code point below 256, [ord(c)]. *)
Definition chr (n : Z) : ascii := ascii_of_N (Z.to_N n).
Definition ord (c : ascii) : Z := Z.of_N (N_of_ascii c).

(** [len(s)] *)
Definition len (s : string) : Z := Z.of_nat (String.length s).

(** [str(n)] for an integer: decimal digits, a leading minus sign for a
    negative number. *)
Definition str_int (n : Z) : string := pretty n.

(** [s[:n]] for a non-negative literal bound [n]. *)
Fixpoint slice_to (n : nat) (s : string) : string :=
  match n, s with
  | O, _ => ""
  | S _, "" => ""
  | S n', String c s' => String c (slice_to n' s')
  end.

(** [s[n:]] for a non-negative bound [n]. *)
Fixpoint slice_from (n : nat) (s : string) : string :=
  match n, s with
  | O, _ => s
  | S _, "" => ""
  | S n', String _ s' => slice_from n' s'
  end.

(** [c.isdigit()] on ASCII text. *)
Definition isdigit (c : ascii) : bool :=
  (48 <=? ord c) && (ord c <=? 57).

(** [c.lower()] on ASCII text. *)
Definition lower_char (c : ascii) : ascii :=
  if (65 <=? ord c) && (ord c <=? 90) then chr (ord c + 32) else c.

Fixpoint lower (s : string) : string :=
  match s with
  | "" => ""
  | String c s' => String (lower_char c) (lower s')
  end.

(** [k in s]: substring test. *)
Fixpoint startswith (k s : string) : bool :=
  match k, s with
  | "", _ => true
  | String _ _, "" => false
  | String a k', String b s' => if Ascii.eqb a b then startswith k' s' else false
  end.

Fixpoint contains (k s : string) : bool :=
  startswith k s ||
  match s with
  | "" => false
  | String _ s' => contains k s'
  end.

(** [s.split(sep)] for a one-character separator: never an empty list. *)
Fixpoint split (sep : ascii) (s : string) : list string :=
  match s with
  | "" => [""]
  | String c s' =>
      if Ascii.eqb c sep then "" :: split sep s'
      else match split sep s' with
           | h :: t => String c h :: t
           | [] => [String c ""]
           end
  end.

(** [s.rstrip("0123456789")] *)
Fixpoint rstrip_digits (s : string) : string :=
  match s with
  | "" => ""
  | String c s' =>
      match rstrip_digits s' with
      | "" => if isdigit c then "" else String c ""
      | r => String c r
      end
  end.

(** ["".join([c for c in s if c.isdigit()])] *)
Fixpoint only_digits (s : string) : string :=
  match s with
  | "" => ""
  | String c s' => if isdigit c then String c (only_digits s') else only_digits s'
  end.

(** The value of a string of decimal digits read left to right. *)
Fixpoint digits_value (acc : Z) (s : string) : Z :=
  match s with
  | "" => acc
  | String c s' => digits_value (acc * 10 + (ord c - 48)) s'
  end.

(** [s.replace(a, b)] for one-character [a] and [b]. *)
Fixpoint replace_char (a b : ascii) (s : string) : string :=
  match s with
  | "" => ""
  | String c s' => String (if Ascii.eqb c a then b else c) (replace_char a b s')
  end.

(** [sep.join(parts)] *)
Fixpoint join (sep : string) (parts : list string) : string :=
  match parts with
  | [] => ""
  | [x] => x
  | x :: rest => x +:+ sep +:+ join sep rest
  end.

(** Truthiness of a string: empty is false. *)
Definition truthy (s : string) : bool :=
  match s with "" => false | _ => true end.

End Py.

(** ** The A1 helper of [main] (source lines 223-229)

    The [while col_idx:] loop runs for as long as the counter is non-zero;
    it is modelled with fuel, [None] meaning that the fuel ran out. *)

Fixpoint a1_loop (fuel : nat) (col_idx : Z) (col_letters : string) : option string :=
  if col_idx =? 0 then Some col_letters
  else match fuel with
       | O => None
       | S fuel' =>
           let remainder := (col_idx - 1) mod 26 in
           let col_idx' := (col_idx - 1) / 26 in
           a1_loop fuel' col_idx' (String (Py.chr (65 + remainder)) col_letters)
       end.

(** The letters of column [col_idx]: the loop started at [col_idx + 1] with
    an empty accumulator. *)
Definition to_letters_fuel (fuel : nat) (col_idx : Z) : option string :=
  a1_loop fuel (col_idx + 1) "".

Definition a1_fuel (fuel : nat) (col_idx row_idx : Z) : option string :=
  match to_letters_fuel fuel col_idx with
  | Some col_letters => Some (col_letters +:+ Py.str_int (row_idx + 1))
  | None => None
  end.

(** Fuel that is always enough for a non-negative column. *)
Definition a1_enough (col_idx : Z) : nat := Z.to_nat (col_idx + 1).

Definition to_letters (col_idx : Z) : option string :=
  to_letters_fuel (a1_enough col_idx) col_idx.

Definition a1 (col_idx row_idx : Z) : option string :=
  a1_fuel (a1_enough col_idx) col_idx row_idx.

(** Modelled from the spec: [from_letters], the decoder of the column
    letters, is named by the specification and absent from the source.  It
    reads the letters as a bijective base-26 numeral (A = 1 ... Z = 26) and
    shifts the value to a zero-based index. *)
Fixpoint letters_value (acc : Z) (s : string) : Z :=
  match s with
  | "" => acc
  | String c s' => letters_value (acc * 26 + (Py.ord c - 64)) s'
  end.

Definition from_letters (s : string) : Z := letters_value 0 s - 1.

(** ** Exceptions and the run monad

    A call either returns, raises a Python exception, or does not return at
    all.  Output written before an exception stays written, so the world is
    threaded through every outcome. *)

Inductive exn :=
| ValueError (msg : string)
| KeyError (msg : string)
| IndexError (msg : string)
| TypeError (msg : string)
| LibraryError (msg : string).

Inductive res (A : Type) :=
| Ok (a : A)
| Raise (e : exn)
| Diverges.
Arguments Ok {A} a.
Arguments Raise {A} e.
Arguments Diverges {A}.

(** ** Typed columns and frames *)

(** The dtype of a pandas column, as far as the four [pd.api.types] tests of
    [auto_number_format] tell dtypes apart. *)
Inductive dtype :=
| Datetime64 | DatetimeTZ | Bool | Int | UInt | Float | Complex
| Timedelta | Object | Category.

Definition is_datetime64_any_dtype (d : dtype) : bool :=
  match d with Datetime64 | DatetimeTZ => true | _ => false end.
Definition is_bool_dtype (d : dtype) : bool :=
  match d with Bool => true | _ => false end.
Definition is_integer_dtype (d : dtype) : bool :=
  match d with Int | UInt => true | _ => false end.
Definition is_float_dtype (d : dtype) : bool :=
  match d with Float => true | _ => false end.

(** A cell value.  Integers, booleans and text carry their value; a value
    whose text form is produced by the floating-point or calendar printer
    ([VRepr]) carries that text. *)
Inductive cell :=
| VInt (n : Z)
| VBool (b : bool)
| VStr (s : string)
| VRepr (text : string).

(** One element of [series.astype(str)]. *)
Definition astype_str (v : cell) : string :=
  match v with
  | VInt n => Py.str_int n
  | VBool true => "True"
  | VBool false => "False"
  | VStr s => s
  | VRepr t => t
  end.

(** [s_name] is [str(series.name)]. *)
Record Series := {
  s_name : string;
  s_dtype : dtype;
  s_values : list cell
}.

Record DataFrame := {
  df_rows : nat;
  df_columns : list Series
}.

(** [df.shape] *)
Definition shape (df : DataFrame) : Z * Z :=
  (Z.of_nat (df_rows df), Z.of_nat (length (df_columns df))).

(** ** Column inference (source lines 33-53) *)

Definition currency_keywords : list string :=
  ["amount"; "revenue"; "price"; "cost"; "total"; "sales"].

Definition auto_number_format (series : Series) : option string :=
  if is_datetime64_any_dtype (s_dtype series) then Some "yyyy-mm-dd"
  else if is_bool_dtype (s_dtype series) then None
  else if is_integer_dtype (s_dtype series) || is_float_dtype (s_dtype series) then
    let name := Py.lower (s_name series) in
    if existsb (fun k => Py.contains k name) currency_keywords
    then Some "$#,##0.00"
    else Some "#,##0.00"
  else None.

(** [max] of a list known to start with [x]. *)
Definition py_max (x : Z) (xs : list Z) : Z := foldl Z.max x xs.

Definition default_max_width : Z := 60.

Definition best_width (series : Series) (max_width : Z) : Z :=
  let s := map astype_str (s_values series) in
  let maxlen := py_max (Py.len (s_name series)) (map Py.len s) in
  Z.min (maxlen + 2) max_width.

(** ** The workbook writer

    The workbook is an object of the writer library; the program only calls
    it.  A run is recorded as the sequence of calls it made, and the library
    may answer any call with an exception. *)

Record Chart := {
  chart_type : string;
  chart_categories : string;
  chart_values : string
}.

Inductive wcall :=
| ExcelWriter (out : string)
| ToExcel (sheet : string) (df : DataFrame) (startrow : Z)
| WriteHeader (sheet : string) (row col : Z) (text : string)
| AddTable (sheet : string) (first_row first_col last_row last_col : Z)
    (name style : string) (headers : list string) (autofilter : bool)
| SetColumn (sheet : string) (first_col last_col width : Z) (num_format : option string)
| Autofilter (sheet : string) (first_row first_col last_row last_col : Z)
| FreezePanes (sheet : string) (row col : Z)
| AddChart (kind : string)
| AddSeries (categories values : string)
| SetTitle (name : string)
| InsertChart (sheet : string) (anchor : string)
| Close.

Record World := {
  book : list wcall;
  stderr : list string;
  stdout : list string
}.

Definition M (A : Type) : Type := World -> World * res A.

Definition ret {A} (a : A) : M A := fun w => (w, Ok a).

Definition bind {A B} (m : M A) (k : A -> M B) : M B :=
  fun w =>
    match m w with
    | (w', Ok a) => k a w'
    | (w', Raise e) => (w', Raise e)
    | (w', Diverges) => (w', Diverges)
    end.

Notation "x <~ m ;; k" := (bind m (fun x => k))
  (at level 100, m at next level, right associativity).
Notation "m ;;; k" := (bind m (fun _ => k))
  (at level 100, right associativity).

(** A pure call into a library: its outcome, the world untouched. *)
Definition lift {A} (r : res A) : M A := fun w => (w, r).

(** [print(..., file=sys.stderr)] and [print(...)] *)
Definition print_err (line : string) : M unit :=
  fun w => ({| book := book w; stderr := stderr w ++ [line]; stdout := stdout w |}, Ok tt).
Definition print_out (line : string) : M unit :=
  fun w => ({| book := book w; stderr := stderr w; stdout := stdout w ++ [line] |}, Ok tt).

Fixpoint for_each {A} (f : A -> M unit) (l : list A) : M unit :=
  match l with
  | [] => ret tt
  | x :: rest => f x ;;; for_each f rest
  end.

(** [enumerate(l)] *)
Fixpoint enumerate_from {A} (i : Z) (l : list A) : list (Z * A) :=
  match l with
  | [] => []
  | x :: rest => (i, x) :: enumerate_from (i + 1) rest
  end.
Definition enumerate {A} (l : list A) : list (Z * A) := enumerate_from 0 l.

(** A Python [dict] whose iteration order matters: insertion order, an
    existing key keeping its place when its value is replaced. *)
Fixpoint dict_set {V} (k : string) (v : V) (d : list (string * V)) : list (string * V) :=
  match d with
  | [] => [(k, v)]
  | (k', v') :: rest =>
      if String.eqb k' k then (k, v) :: rest else (k', v') :: dict_set k v rest
  end.

Fixpoint dict_get {V} (k : string) (d : list (string * V)) : option V :=
  match d with
  | [] => None
  | (k', v') :: rest => if String.eqb k' k then Some v' else dict_get k rest
  end.

Section Writer.

(** The writer library's verdict on a call, given the calls so far. *)
Variable engine : list wcall -> wcall -> option exn.

Definition emit (c : wcall) : M unit :=
  fun w =>
    match engine (book w) c with
    | Some e => (w, Raise e)
    | None =>
        ({| book := book w ++ [c]; stderr := stderr w; stdout := stdout w |}, Ok tt)
    end.

(** Source lines 56-98.  [df[col]] is the column itself. *)
Definition write_df_to_sheet (df : DataFrame) (sheet_name : string)
    (make_table : bool) (table_style : string)
    (autofilter freeze_header : bool) : M unit :=
  emit (ToExcel sheet_name df (if make_table then 1 else 0)) ;;;
  (if make_table then
     for_each (fun '(col_idx, col) => emit (WriteHeader sheet_name 0 col_idx (s_name col)))
              (enumerate (df_columns df)) ;;;
     let last_row := Z.of_nat (df_rows df) in
     let last_col := Z.of_nat (length (df_columns df)) - 1 in
     emit (AddTable sheet_name 0 0 last_row last_col
             ("tbl_" +:+ Py.replace_char " " "_" (Py.slice_to 20 sheet_name))
             table_style (map s_name (df_columns df)) true)
   else
     for_each (fun '(col_idx, col) => emit (WriteHeader sheet_name 0 col_idx (s_name col)))
              (enumerate (df_columns df))) ;;;
  for_each (fun '(col_idx, col) =>
              let fmt_str := auto_number_format col in
              let fmt := match fmt_str with
                         | Some f => if Py.truthy f then Some f else None
                         | None => None
                         end in
              let width := best_width col default_max_width in
              emit (SetColumn sheet_name col_idx col_idx width fmt))
           (enumerate (df_columns df)) ;;;
  (if autofilter && negb make_table then
     emit (Autofilter sheet_name 0 0 (Z.of_nat (df_rows df))
             (Z.of_nat (length (df_columns df)) - 1))
   else ret tt) ;;;
  (if freeze_header then emit (FreezePanes sheet_name (if make_table then 1 else 1) 0)
   else ret tt).

(** Source lines 125-141.  [int] of the digits of the first cell fails on
    an empty digit string, [split(':')[1]] on a range without a colon,
    [ord] on a column part that is not exactly one character. *)
Definition add_chart_from_table (sheet_name table_range chart_type : string)
    (title : option string) : M unit :=
  emit (AddChart chart_type) ;;;
  let parts := Py.split ":" table_range in
  let first := List.hd "" parts in
  let first_col_letter := Py.rstrip_digits first in
  start_row <~ lift (match Py.only_digits first with
                     | "" => Raise (ValueError "invalid literal for int() with base 10: ''")
                     | ds => Ok (Py.digits_value 0 ds)
                     end) ;;
  second <~ lift (match parts !! 1%nat with
                  | Some x => Ok x
                  | None => Raise (IndexError "list index out of range")
                  end) ;;
  let categories :=
    "=" +:+ sheet_name +:+ "!" +:+ first +:+ ":" +:+ first_col_letter
        +:+ Py.slice_from (String.length first_col_letter) second in
  next_col <~ lift (match first_col_letter with
                    | String c "" => Ok (String (Py.chr (Py.ord c + 1)) "")
                    | _ => Raise (TypeError "ord() expected a character")
                    end) ;;
  let values :=
    "=" +:+ sheet_name +:+ "!" +:+ next_col +:+ Py.str_int start_row
        +:+ ":" +:+ second in
  emit (AddSeries categories values) ;;;
  (match title with
   | Some t => if Py.truthy t then emit (SetTitle t) else ret tt
   | None => ret tt
   end) ;;;
  emit (InsertChart sheet_name "B2").

End Writer.

(** ** Pivot synthesis (source lines 101-122) *)

(** One entry of the [pivots] list of the configuration.  [None] is a key
    the entry does not have. *)
Record PivotSpec := {
  p_name : option string;
  p_source : option string;
  p_index : option (list string);
  p_columns : option (list string);
  p_values : option (list string);
  p_aggfunc : option string;
  p_fillna : option cell;
  p_margins : option bool
}.

(** The keyword arguments of the [pd.pivot_table] call. *)
Record PivotArgs := {
  pa_index : option (list string);
  pa_columns : option (list string);
  pa_values : option (list string);
  pa_aggfunc : string;
  pa_fill_value : cell;
  pa_dropna : bool;
  pa_margins : bool
}.

(** [pivot.columns]: a flat index of labels or a [MultiIndex] of tuples;
    labels are kept as their [str]. *)
Inductive col_index :=
| Index (labels : list string)
| MultiIndex (tuples : list (list string)).

Record Pivot := {
  pv_columns : col_index;
  pv_index : list Series;
  pv_data : list (dtype * list cell)
}.

Definition pivot_args (p : PivotSpec) : PivotArgs :=
  {| pa_index := p_index p;
     pa_columns := p_columns p;
     pa_values := p_values p;
     pa_aggfunc := default "sum" (p_aggfunc p);
     pa_fill_value := default (VInt 0) (p_fillna p);
     pa_dropna := false;
     pa_margins := default false (p_margins p) |}.

(** Source lines 119-120. *)
Definition flatten_columns (pivot : Pivot) : Pivot :=
  match pv_columns pivot with
  | MultiIndex tuples =>
      {| pv_columns :=
           Index (map (fun tup => Py.join " " (filter (fun c => c <> "") tup)) tuples);
         pv_index := pv_index pivot;
         pv_data := pv_data pivot |}
  | Index _ => pivot
  end.

(** [f"{src}"] for the value of [p.get("source")]. *)
Definition str_source (src : option string) : string := default "None" src.

Section Pivots.

(** [pd.pivot_table] and [DataFrame.reset_index] are pandas's. *)
Variable pivot_table : DataFrame -> PivotArgs -> res Pivot.
Variable reset_index : Pivot -> res DataFrame.

(** The body of the [for p in summary_cfg] loop, from the dictionary
    [pivots] built so far. *)
Fixpoint build_pivots_from (summary_cfg : list PivotSpec)
    (frames : gmap string DataFrame)
    (pivots : list (string * DataFrame)) : M (list (string * DataFrame)) :=
  match summary_cfg with
  | [] => ret pivots
  | p :: rest =>
      let src := p_source p in
      match src ≫= (fun k => frames !! k) with
      | None =>
          print_err ("[warn] pivot source not found: " +:+ str_source src) ;;;
          build_pivots_from rest frames pivots
      | Some df =>
          pivot <~ lift (pivot_table df (pivot_args p)) ;;
          let pivot := flatten_columns pivot in
          flat <~ lift (reset_index pivot) ;;
          build_pivots_from rest frames
            (dict_set (default ("pivot_" +:+ str_source src) (p_name p)) flat pivots)
      end
  end.

Definition build_pivots (summary_cfg : list PivotSpec)
    (frames : gmap string DataFrame) : M (list (string * DataFrame)) :=
  build_pivots_from summary_cfg frames [].

End Pivots.

(** ** Reading the sources and the orchestration (source lines 20-30, 169-236) *)

Record Path := {
  stem : string;
  suffix : string
}.

(** The pandas readers [read_frame] dispatches to.  [parse_dates] is
    [date_cols or True]: [None] stands for [True]. *)
Inductive read_call :=
| ReadCsv (path : Path) (sep : option string) (parse_dates : option (list string))
| ReadJson (path : Path)
| ReadParquet (path : Path).

Record SourceHint := {
  sh_name : option string;
  sh_date_cols : option (list string)
}.

Record Config := {
  cfg_sources : option (list SourceHint);
  cfg_pivots : option (list PivotSpec);
  cfg_table_style : option string
}.

Record Args := {
  arg_out : string;
  arg_sheet_prefix : string;
  arg_no_table : bool;
  arg_no_autofilter : bool;
  arg_no_freeze : bool
}.

(** [date_cols or True] *)
Definition or_true (date_cols : option (list string)) : option (list string) :=
  match date_cols with
  | Some ((_ :: _) as l) => Some l
  | _ => None
  end.

(** Source line 192: [p.stem[:31]]. *)
Definition dataset_name (p : Path) : string := Py.slice_to 31 (stem p).

(** Source line 193. *)
Definition source_sheet_name (sheet_prefix : string) (p : Path) : string :=
  sheet_prefix +:+ dataset_name p.

(** Source line 217. *)
Definition pivot_sheet_name (piv_name : string) : string :=
  Py.slice_to 31 ("Summary - " +:+ piv_name).

(** Source lines 194-199: the first hint with this name and a non-empty
    [date_cols]. *)
Fixpoint date_cols_for (name : string) (sources : list SourceHint) : option (list string) :=
  match sources with
  | [] => None
  | s :: rest =>
      match sh_name s, sh_date_cols s with
      | Some n, Some ((_ :: _) as l) => if String.eqb n name then Some l else date_cols_for name rest
      | _, _ => date_cols_for name rest
      end
  end.

(** Source lines 221-232: the range rebuilt from the shape of the pivot. *)
Definition table_range (piv_df : DataFrame) : option string :=
  let '(rows, cols) := shape piv_df in
  match a1 0 0, a1 (cols - 1) rows with
  | Some start, Some end_ => Some (start +:+ ":" +:+ end_)
  | _, _ => None
  end.

Section Orchestrator.

Variable engine : list wcall -> wcall -> option exn.
Variable pandas_read : read_call -> res DataFrame.
Variable pivot_table : DataFrame -> PivotArgs -> res Pivot.
Variable reset_index : Pivot -> res DataFrame.

Definition read_frame (path : Path) (date_cols : option (list string)) : res DataFrame :=
  let ext := Py.lower (suffix path) in
  if String.eqb ext ".csv" then pandas_read (ReadCsv path None (or_true date_cols))
  else if String.eqb ext ".tsv" then
    pandas_read (ReadCsv path (Some (String (Py.chr 9) "")) (or_true date_cols))
  else if String.eqb ext ".json" then pandas_read (ReadJson path)
  else if String.eqb ext ".parquet" then pandas_read (ReadParquet path)
  else Raise (ValueError ("Unsupported file extension: " +:+ ext)).

(** The [for p in input_paths] loop, from the registry [frames] built so
    far. *)
Fixpoint load_sources (args : Args) (cfg : Config) (input_paths : list Path)
    (frames : gmap string DataFrame) : M (gmap string DataFrame) :=
  match input_paths with
  | [] => ret frames
  | p :: rest =>
      let name := dataset_name p in
      let sheet_name := source_sheet_name (arg_sheet_prefix args) p in
      let date_cols := date_cols_for name (default [] (cfg_sources cfg)) in
      df <~ lift (read_frame p date_cols) ;;
      let frames := <[name := df]> frames in
      write_df_to_sheet engine df sheet_name
        (negb (arg_no_table args))
        (default "Table Style Light 9" (cfg_table_style cfg))
        (negb (arg_no_autofilter args))
        (negb (arg_no_freeze args)) ;;;
      load_sources args cfg rest frames
  end.

(** The body of the [for piv_name, piv_df in pivots.items()] loop. *)
Definition write_pivot (entry : string * DataFrame) : M unit :=
  let '(piv_name, piv_df) := entry in
  let sname := pivot_sheet_name piv_name in
  write_df_to_sheet engine piv_df sname true "Table Style Light 9" true true ;;;
  range <~ lift (match table_range piv_df with
                 | Some r => Ok r
                 | None => Diverges
                 end) ;;
  add_chart_from_table engine sname range "column" (Some piv_name).

(** [main] from the point where the arguments are parsed, the
    configuration is loaded and the inputs are gathered. *)
Definition main (args : Args) (cfg : Config) (input_paths : list Path) : M Z :=
  match input_paths with
  | [] => print_out "No input files found." ;;; ret 2
  | _ =>
      emit engine (ExcelWriter (arg_out args)) ;;;
      frames <~ load_sources args cfg input_paths ∅ ;;
      (match cfg_pivots cfg with
       | Some ((_ :: _) as summary_cfg) =>
           pivots <~ build_pivots pivot_table reset_index summary_cfg frames ;;
           for_each write_pivot pivots
       | _ => ret tt
       end) ;;;
      emit engine Close ;;;
      print_out ("Wrote " +:+ arg_out args) ;;;
      ret 0
  end.

End Orchestrator.

Definition world0 : World := {| book := []; stderr := []; stdout := [] |}.

(** ** Vocabulary of the specification *)

(** The column kinds of the specification's format rule. *)
Inductive kind := KDate | KBool | KNumeric | KOther.

Definition kind_of (d : dtype) : kind :=
  match d with
  | Datetime64 | DatetimeTZ => KDate
  | Bool => KBool
  | Int | UInt | Float => KNumeric
  | Complex | Timedelta | Object | Category => KOther
  end.

(** A name contains a keyword case-insensitively: some stretch of the name
    reads as the keyword once lower-cased. *)
Definition mentions (k name : string) : Prop :=
  exists pre mid post, name = pre +:+ mid +:+ post /\ Py.lower mid = k.

Definition currency_named (name : string) : Prop :=
  exists k, k ∈ currency_keywords /\ mentions k name.

(** The text lengths a column's width is taken over: header first. *)
Definition text_lengths (series : Series) : list Z :=
  Py.len (s_name series) :: map (fun v => Py.len (astype_str v)) (s_values series).

(** The column with the cell at position [i] replaced. *)
Definition with_cell (series : Series) (i : nat) (v : cell) : Series :=
  {| s_name := s_name series;
     s_dtype := s_dtype series;
     s_values := <[i := v]> (s_values series) |}.

(** The same column holding other values. *)
Definition with_values (series : Series) (vs : list cell) : Series :=
  {| s_name := s_name series; s_dtype := s_dtype series; s_values := vs |}.

(** The state of the world after one more line on the diagnostic stream. *)
Definition warned (line : string) (w : World) : World :=
  {| book := book w; stderr := stderr w ++ [line]; stdout := stdout w |}.

(** The ranges the specification gives the chart binder for a table of
    [rows] data rows and [cols] columns under a header in row 0: column 0
    over rows 1 to [rows], and columns 1 to [cols - 1] over the same rows. *)
Definition data_rows_categories (sheet_name : string) (rows : Z) : option string :=
  match a1 0 1, a1 0 rows with
  | Some tl, Some br => Some ("=" +:+ sheet_name +:+ "!" +:+ tl +:+ ":" +:+ br)
  | _, _ => None
  end.

Definition data_rows_values (sheet_name : string) (rows cols : Z) : option string :=
  match a1 1 1, a1 (cols - 1) rows with
  | Some tl, Some br => Some ("=" +:+ sheet_name +:+ "!" +:+ tl +:+ ":" +:+ br)
  | _, _ => None
  end.

(** A computation moves a component of the world only along the relation
    [R], whatever its outcome. *)
Definition preserves {S A} (proj : World -> S) (R : S -> S -> Prop) (m : M A) : Prop :=
  forall w w' r, m w = (w', r) -> R (proj w) (proj w').

(** The specification's isolation of a failing pivot specification: the
    specifications after it are processed, and the outcome is the one the list
    has without it. *)
Definition failure_isolated
    (pivot_table : DataFrame -> PivotArgs -> res Pivot)
    (reset_index : Pivot -> res DataFrame)
    (frames : gmap string DataFrame)
    (before : list PivotSpec) (failing : PivotSpec) (after : list PivotSpec)
    (w : World) : Prop :=
  snd (build_pivots pivot_table reset_index (before ++ failing :: after) frames w)
  = snd (build_pivots pivot_table reset_index (before ++ after) frames w).

(** The warning printed for a source that is not in the registry. *)
Definition source_warning (p : PivotSpec) : string :=
  "[warn] pivot source not found: " +:+ str_source (p_source p).

(** Every character of a text passes a test. *)
Fixpoint all_chars (test : ascii -> bool) (s : string) : bool :=
  match s with
  | "" => true
  | String c s' => test c && all_chars test s'
  end.

(** ** Instances of the external calls, for running the program on examples *)

Module Sample.

(** A writer that accepts every call. *)
Definition accept_all : list wcall -> wcall -> option exn := fun _ _ => None.

Definition column_named (df : DataFrame) (label : string) : option Series :=
  List.find (fun c => String.eqb (s_name c) label) (df_columns df).

Fixpoint first_missing (df : DataFrame) (labels : list string) : option string :=
  match labels with
  | [] => None
  | l :: rest =>
      match column_named df l with
      | Some _ => first_missing df rest
      | None => Some l
      end
  end.

(** [pd.pivot_table] on frames whose index-key rows are already distinct
    and in order, without column keys: every row is its own group, so the
    aggregate of a value column is the column.  A label that is not a
    column of the frame raises [KeyError], value labels checked first. *)
Definition pivot_table (df : DataFrame) (args : PivotArgs) : res Pivot :=
  let values := default [] (pa_values args) in
  let index := default [] (pa_index args) in
  let columns := default [] (pa_columns args) in
  match first_missing df (values ++ index ++ columns) with
  | Some l => Raise (KeyError l)
  | None =>
      Ok {| pv_columns := Index values;
            pv_index := omap (column_named df) index;
            pv_data := map (fun c => (s_dtype c, s_values c))
                           (omap (column_named df) values) |}
  end.

Definition labels_of (c : col_index) : list string :=
  match c with
  | Index labels => labels
  | MultiIndex tuples => map (Py.join ", ") tuples
  end.

(** [reset_index]: the index levels become the leading columns. *)
Definition reset_index (pivot : Pivot) : res DataFrame :=
  Ok {| df_rows := match pv_index pivot with
                   | c :: _ => length (s_values c)
                   | [] => 0
                   end;
        df_columns :=
          pv_index pivot ++
          zip_with (fun l '(d, vs) => {| s_name := l; s_dtype := d; s_values := vs |})
                   (labels_of (pv_columns pivot)) (pv_data pivot) |}.

Definition sales_q1 : DataFrame :=
  {| df_rows := 2;
     df_columns :=
       [ {| s_name := "region"; s_dtype := Object;
            s_values := [VStr "east"; VStr "west"] |};
         {| s_name := "amount"; s_dtype := Int;
            s_values := [VInt 10; VInt 7] |} ] |}.

Definition sales_q2 : DataFrame :=
  {| df_rows := 1;
     df_columns :=
       [ {| s_name := "region"; s_dtype := Object; s_values := [VStr "north"] |};
         {| s_name := "amount"; s_dtype := Int; s_values := [VInt 1250] |} ] |}.

(** Two files whose stems agree on their first 31 characters. *)
Definition long_a : Path :=
  {| stem := "quarterly_sales_report_northern_a"; suffix := ".csv" |}.
Definition long_b : Path :=
  {| stem := "quarterly_sales_report_northern_b"; suffix := ".CSV" |}.

Definition q1 : Path := {| stem := "sales_q1"; suffix := ".csv" |}.

Definition pandas_read (c : read_call) : res DataFrame :=
  match c with
  | ReadCsv p _ _ =>
      if String.eqb (stem p) (stem q1) then Ok sales_q1
      else if String.eqb (stem p) (stem long_a) then Ok sales_q1
      else if String.eqb (stem p) (stem long_b) then Ok sales_q2
      else Raise (LibraryError "No such file or directory")
  | _ => Raise (LibraryError "No such file or directory")
  end.

Definition args : Args :=
  {| arg_out := "report.xlsx"; arg_sheet_prefix := "Q1 ";
     arg_no_table := false; arg_no_autofilter := false; arg_no_freeze := false |}.

Definition by_region (name source value : string) : PivotSpec :=
  {| p_name := Some name; p_source := Some source;
     p_index := Some ["region"]; p_columns := None; p_values := Some [value];
     p_aggfunc := None; p_fillna := None; p_margins := None |}.

Definition frames : gmap string DataFrame := <["sales_q1" := sales_q1]> ∅.

(** A pivot result of three data rows and three columns. *)
Definition by_region_result : DataFrame :=
  {| df_rows := 3;
     df_columns :=
       [ {| s_name := "region"; s_dtype := Object;
            s_values := [VStr "east"; VStr "north"; VStr "west"] |};
         {| s_name := "amount"; s_dtype := Int;
            s_values := [VInt 10; VInt 1250; VInt 7] |};
         {| s_name := "units"; s_dtype := Int;
            s_values := [VInt 2; VInt 40; VInt 1] |} ] |}.

Definition no_config : Config :=
  {| cfg_sources := None; cfg_pivots := None; cfg_table_style := None |}.

(** Three pivots over [sales_q1]; the second names a value column the
    frame does not have. *)
Definition first_pivot : PivotSpec := by_region "first" "sales_q1" "amount".
Definition bad_pivot : PivotSpec := by_region "bad" "sales_q1" "missing".
Definition good_pivot : PivotSpec := by_region "good" "sales_q1" "amount".
Definition lost_pivot : PivotSpec := by_region "lost" "sales_2019" "amount".

Definition pivots_config : Config :=
  {| cfg_sources := None;
     cfg_pivots := Some [first_pivot; bad_pivot; good_pivot];
     cfg_table_style := None |}.

(** The world once the workbook is opened and [sales_q1] is loaded. *)
Definition loaded : World :=
  fst ((emit accept_all (ExcelWriter (arg_out args)) ;;;
        load_sources accept_all pandas_read args pivots_config [q1] ∅) world0).

End Sample.

(** ** Gathering the inputs (source lines 17, 155-166) *)

Definition SUPPORTED_EXTS : list string := [".csv"; ".tsv"; ".json"; ".parquet"].

Section Gather.

(** The file system as [pathlib] shows it: [Path(inp)], [is_dir], [is_file]
    and the sorted result of [glob("*" + ext)]. *)
Variable as_path : string -> Path.
Variable is_dir : string -> bool.
Variable is_file : string -> bool.
Variable glob_sorted : string -> string -> list Path.

(** The order in which the set [SUPPORTED_EXTS] is iterated. *)
Variable ext_order : list string.

Fixpoint gather_inputs_from (inputs : list string) (paths : list Path) : M (list Path) :=
  match inputs with
  | [] => ret paths
  | inp :: rest =>
      if is_dir inp then
        gather_inputs_from rest
          (paths ++ concat (map (fun ext => glob_sorted inp ext) ext_order))
      else if is_file inp then
        gather_inputs_from rest (paths ++ [as_path inp])
      else
        print_err ("[warn] input not found: " +:+ inp) ;;;
        gather_inputs_from rest paths
  end.

Definition gather_inputs (inputs : list string) : M (list Path) :=
  gather_inputs_from inputs [].

End Gather.

(** ** Further vocabulary *)

Definition is_upper (c : ascii) : bool := (65 <=? Py.ord c) && (Py.ord c <=? 90).

(** The name [write_df_to_sheet] gives the table of a sheet. *)
Definition table_name (sheet_name : string) : string :=
  "tbl_" +:+ Py.replace_char " " "_" (Py.slice_to 20 sheet_name).

(** The writer calls of [write_df_to_sheet], in order, when none is
    rejected. *)
Definition header_calls (sheet_name : string) (df : DataFrame) : list wcall :=
  map (fun '(col_idx, col) => WriteHeader sheet_name 0 col_idx (s_name col))
      (enumerate (df_columns df)).

Definition column_format (col : Series) : option string :=
  match auto_number_format col with
  | Some f => if Py.truthy f then Some f else None
  | None => None
  end.

Definition column_calls (sheet_name : string) (df : DataFrame) : list wcall :=
  map (fun '(col_idx, col) =>
         SetColumn sheet_name col_idx col_idx (best_width col default_max_width)
                   (column_format col))
      (enumerate (df_columns df)).

Definition sheet_calls (df : DataFrame) (sheet_name : string) (make_table : bool)
    (table_style : string) (autofilter freeze_header : bool) : list wcall :=
  ToExcel sheet_name df (if make_table then 1 else 0)
  :: header_calls sheet_name df
  ++ (if make_table
      then [AddTable sheet_name 0 0 (Z.of_nat (df_rows df))
              (Z.of_nat (length (df_columns df)) - 1)
              (table_name sheet_name) table_style (map s_name (df_columns df)) true]
      else [])
  ++ column_calls sheet_name df
  ++ (if autofilter && negb make_table
      then [Autofilter sheet_name 0 0 (Z.of_nat (df_rows df))
              (Z.of_nat (length (df_columns df)) - 1)]
      else [])
  ++ (if freeze_header then [FreezePanes sheet_name 1 0] else []).

(** The key a pivot specification is stored under. *)
Definition pivot_key (p : PivotSpec) : string :=
  default ("pivot_" +:+ str_source (p_source p)) (p_name p).

(** The source of a specification is a loaded dataset. *)
Definition resolved (frames : gmap string DataFrame) (p : PivotSpec) : bool :=
  match p_source p ≫= (fun k => frames !! k) with
  | Some _ => true
  | None => false
  end.

(** The extension [read_frame] sees is one of the four it reads. *)
Definition supported (path : Path) : bool :=
  bool_decide (Py.lower (suffix path) ∈ SUPPORTED_EXTS).

Definition is_table_call (c : wcall) : bool :=
  match c with AddTable _ _ _ _ _ _ _ _ _ => true | _ => false end.
Definition is_autofilter_call (c : wcall) : bool :=
  match c with Autofilter _ _ _ _ _ => true | _ => false end.

(** The single-level name of one column tuple (source line 120). *)
Definition flat_label (tup : list string) : string :=
  Py.join " " (filter (fun c => c <> "") tup).

Definition column_count (c : col_index) : nat :=
  match c with
  | Index labels => length labels
  | MultiIndex tuples => length tuples
  end.

(** The workbook gained calls, none of them [c]. *)
Definition extends_without (c : wcall) (b b' : list wcall) : Prop :=
  exists added, b' = b ++ added /\ c ∉ added.

(** ** The run from the command-line inputs (source lines 182-185) *)

Section CommandLine.

Variable engine : list wcall -> wcall -> option exn.
Variable pandas_read : read_call -> res DataFrame.
Variable pivot_table : DataFrame -> PivotArgs -> res Pivot.
Variable reset_index : Pivot -> res DataFrame.
Variable as_path : string -> Path.
Variable is_dir : string -> bool.
Variable is_file : string -> bool.
Variable glob_sorted : string -> string -> list Path.
Variable ext_order : list string.

(** [main] on the inputs given on the command line: they are gathered, then
    processed. *)
Definition main_from_inputs (args : Args) (cfg : Config) (inputs : list string) : M Z :=
  input_paths <~ gather_inputs as_path is_dir is_file glob_sorted ext_order inputs ;;
  main engine pandas_read pivot_table reset_index args cfg input_paths.

(** What one command-line input contributes to the gathered paths. *)
Definition expand_input (inp : string) : list Path :=
  if is_dir inp then concat (map (fun ext => glob_sorted inp ext) ext_order)
  else if is_file inp then [as_path inp]
  else [].

(** The input is neither a directory nor a file. *)
Definition missing_input (inp : string) : bool :=
  negb (is_dir inp) && negb (is_file inp).

End CommandLine.

Definition input_warning (inp : string) : string := "[warn] input not found: " +:+ inp.

(** ** A small file system, for running the gathering on examples *)

Module SampleFiles.

Definition notes : Path := {| stem := "notes"; suffix := ".XLS" |}.

(** A directory [data] holding [sales_q1.csv], and a file [notes.XLS]. *)
Definition as_path (inp : string) : Path :=
  if String.eqb inp "data/sales_q1.csv" then Sample.q1
  else if String.eqb inp "notes.XLS" then notes
  else {| stem := inp; suffix := "" |}.

Definition is_dir (inp : string) : bool := String.eqb inp "data".

Definition is_file (inp : string) : bool :=
  String.eqb inp "data/sales_q1.csv" || String.eqb inp "notes.XLS".

Definition glob_sorted (dir ext : string) : list Path :=
  if String.eqb dir "data" && String.eqb ext ".csv" then [Sample.q1] else [].

Definition ext_order : list string := [".parquet"; ".csv"; ".json"; ".tsv"].

End SampleFiles.

(** * Properties *)

(** ** Address translator *)

Lemma ord_chr (n : Z) : 0 <= n < 256 -> Py.ord (Py.chr n) = n.
Proof.
  intros Hn. unfold Py.ord, Py.chr.
  rewrite N_ascii_embedding by lia. lia.
Qed.

Lemma a1_loop_negative fuel n acc : n < 0 -> a1_loop fuel n acc = None.
Proof.
  revert n acc. induction fuel as [|fuel IH]; intros n acc Hn; simpl.
  - destruct (Z.eqb_spec n 0); [lia | reflexivity].
  - destruct (Z.eqb_spec n 0); [lia |].
    apply IH. apply Z.div_lt_upper_bound; lia.
Qed.

Lemma a1_loop_enough fuel n acc :
  0 <= n <= Z.of_nat fuel -> is_Some (a1_loop fuel n acc).
Proof.
  revert n acc. induction fuel as [|fuel IH]; intros n acc Hn; simpl.
  - destruct (Z.eqb_spec n 0); [eauto | lia].
  - destruct (Z.eqb_spec n 0); [eauto |].
    apply IH. split.
    + apply Z.div_pos; lia.
    + assert ((n - 1) / 26 <= n - 1) by (apply Z.div_le_upper_bound; lia). lia.
Qed.

Lemma a1_loop_value fuel n acc s :
  0 <= n -> a1_loop fuel n acc = Some s ->
  letters_value 0 s = letters_value n acc.
Proof.
  revert n acc. induction fuel as [|fuel IH]; intros n acc Hn; simpl.
  - destruct (Z.eqb_spec n 0); [| discriminate].
    intros [= <-]. now subst.
  - destruct (Z.eqb_spec n 0).
    + intros [= <-]. now subst.
    + intros Hloop. apply IH in Hloop; [| apply Z.div_pos; lia].
      rewrite Hloop. simpl.
      pose proof (Z.mod_pos_bound (n - 1) 26 ltac:(lia)) as Hr.
      rewrite ord_chr by lia.
      f_equal. pose proof (Z.div_mod (n - 1) 26 ltac:(lia)). lia.
Qed.

Lemma to_letters_decodes c s :
  0 <= c -> to_letters c = Some s -> from_letters s = c.
Proof.
  intros Hc Hs. unfold from_letters, to_letters, to_letters_fuel in *.
  apply a1_loop_value in Hs; [| lia]. rewrite Hs. simpl. lia.
Qed.

Lemma to_letters_returns c : -1 <= c -> is_Some (to_letters c).
Proof.
  intros Hc. apply a1_loop_enough. unfold a1_enough. lia.
Qed.

(** C1.  The column letters of the A1 helper are a bijective base-26
    numeral: for every non-negative column index the helper returns letters,
    decoding them gives the index back, two different indices never share
    their letters, and the indices 0, 25, 26, 701 and 702 are written A, Z,
    AA, ZZ and AAA. *)
Theorem to_letters_round_trip (c c' : Z) (Hc : 0 <= c) (Hc' : 0 <= c') :
  (exists s, to_letters c = Some s /\ from_letters s = c /\
             forall row_idx, a1 c row_idx = Some (s +:+ Py.str_int (row_idx + 1))) /\
  (to_letters c = to_letters c' -> c = c') /\
  to_letters 0 = Some "A" /\
  to_letters 25 = Some "Z" /\
  to_letters 26 = Some "AA" /\
  to_letters 701 = Some "ZZ" /\
  to_letters 702 = Some "AAA".
Proof.
  split; [| split; [| repeat split; reflexivity]].
  - destruct (to_letters_returns c ltac:(lia)) as [s Hs].
    exists s. split; [exact Hs |]. split; [now apply to_letters_decodes |].
    intros row_idx. unfold a1, a1_fuel. unfold to_letters in Hs. now rewrite Hs.
  - intros Heq.
    destruct (to_letters_returns c ltac:(lia)) as [s Hs].
    rewrite <- (to_letters_decodes c s Hc Hs).
    rewrite Heq in Hs. now apply to_letters_decodes.
Qed.

Lemma to_letters_round_trip_witness :
  (exists s, to_letters 27 = Some s /\ from_letters s = 27 /\
             forall row_idx, a1 27 row_idx = Some (s +:+ Py.str_int (row_idx + 1))) /\
  (to_letters 27 = to_letters 731 -> 27 = 731).
Proof.
  pose proof (to_letters_round_trip 27 731 ltac:(lia) ltac:(lia)) as H.
  split; [exact (proj1 H) | exact (proj1 (proj2 H))].
Defined.

(** *** Decimal text of a row number *)

Lemma ord_pretty_N_char (d : N) : (d < 10)%N -> Py.ord (pretty_N_char d) = 48 + Z.of_N d.
Proof.
  intros Hd.
  assert (d = 0 \/ d = 1 \/ d = 2 \/ d = 3 \/ d = 4 \/ d = 5 \/ d = 6 \/ d = 7
          \/ d = 8 \/ d = 9)%N as Hcases by lia.
  repeat (destruct Hcases as [-> | Hcases]; [reflexivity |]).
  subst d. reflexivity.
Qed.

Lemma pretty_N_go_value (x : N) (s : string) :
  Py.digits_value 0 (pretty_N_go x s) = Py.digits_value (Z.of_N x) s.
Proof.
  revert s. induction (N.lt_wf_0 x) as [x _ IH]. intros s.
  destruct (N.eq_dec x 0%N) as [-> | Hx].
  - now rewrite pretty_N_go_0.
  - rewrite pretty_N_go_step by lia.
    rewrite IH by (apply N.div_lt; lia).
    simpl. rewrite ord_pretty_N_char by (apply N.mod_lt; lia).
    f_equal. pose proof (N.div_mod x 10 ltac:(lia)). lia.
Qed.

Lemma str_int_value (n : Z) : 0 <= n -> Py.digits_value 0 (Py.str_int n) = n.
Proof.
  intros Hn. unfold Py.str_int, pretty, pretty_Z.
  destruct n as [| p | p]; [reflexivity | | lia].
  unfold pretty, pretty_positive, pretty, pretty_N.
  destruct (decide (N.pos p = 0%N)); [discriminate |].
  now rewrite pretty_N_go_value.
Qed.

(** *** The range rebuilt in [main] *)

Lemma to_letters_minus_one : to_letters (-1) = Some "" /\ from_letters "" = -1.
Proof. split; reflexivity. Qed.

Lemma to_letters_from_count (n : nat) :
  exists letters, to_letters (Z.of_nat n - 1) = Some letters /\
                  from_letters letters = Z.of_nat n - 1.
Proof.
  destruct n as [| n].
  - exists "". exact to_letters_minus_one.
  - destruct (to_letters_returns (Z.of_nat (S n) - 1) ltac:(lia)) as [s Hs].
    exists s. split; [exact Hs |]. apply to_letters_decodes; [lia | exact Hs].
Qed.

(** C2.  For a pivot result of R data rows and C columns the rebuilt range
    starts at "A1", the address of coordinate (0,0), and ends at the address
    of coordinate (C-1, R): its letters decode to C-1 and its row number is
    the decimal text of R+1, which reads back as R+1; for 3 data rows the
    row number is 4. *)
Theorem table_range_corners (piv_df : DataFrame) :
  let R := Z.of_nat (df_rows piv_df) in
  let C := Z.of_nat (length (df_columns piv_df)) in
  a1 0 0 = Some "A1" /\
  exists letters,
    to_letters (C - 1) = Some letters /\
    from_letters letters = C - 1 /\
    a1 (C - 1) R = Some (letters +:+ Py.str_int (R + 1)) /\
    Py.digits_value 0 (Py.str_int (R + 1)) = R + 1 /\
    a1 (C - 1) 3 = Some (letters +:+ "4") /\
    table_range piv_df = Some ("A1" +:+ ":" +:+ letters +:+ Py.str_int (R + 1)).
Proof.
  intros R C. split; [reflexivity |].
  destruct (to_letters_from_count (length (df_columns piv_df))) as (letters & Hs & Hd).
  fold C in Hs, Hd.
  assert (Ha : forall r, a1 (C - 1) r = Some (letters +:+ Py.str_int (r + 1))).
  { intros r. unfold a1, a1_fuel. unfold to_letters in Hs. now rewrite Hs. }
  exists letters. repeat split; try assumption.
  - apply Ha.
  - apply str_int_value. lia.
  - apply Ha.
  - unfold table_range, shape. fold R C. rewrite Ha. reflexivity.
Qed.

(** ** Text lemmas *)

Lemma append_nil_l (s : string) : "" +:+ s = s.
Proof. reflexivity. Qed.

Lemma append_cons (c : ascii) (s t : string) : String c s +:+ t = String c (s +:+ t).
Proof. reflexivity. Qed.

Lemma append_nil_r (s : string) : s +:+ "" = s.
Proof. induction s as [| c s IH]; [reflexivity |]. rewrite append_cons. now f_equal. Qed.

Lemma append_assoc (a b c : string) : (a +:+ b) +:+ c = a +:+ b +:+ c.
Proof.
  induction a as [| x a IH]; [reflexivity |].
  rewrite !append_cons. now f_equal.
Qed.

Lemma length_append (a b : string) :
  String.length (a +:+ b) = (String.length a + String.length b)%nat.
Proof.
  induction a as [| x a IH]; [reflexivity |].
  rewrite append_cons. simpl. now f_equal.
Qed.

Lemma startswith_iff (k s : string) :
  Py.startswith k s = true <-> exists post, s = k +:+ post.
Proof.
  revert s. induction k as [| a k IH]; intros s.
  - split; [intros _; now exists s | reflexivity].
  - destruct s as [| b s]; simpl.
    + split; [discriminate | intros (post & H); discriminate H].
    + destruct (Ascii.eqb_spec a b) as [-> | Hab].
      * rewrite IH. split.
        -- intros (post & ->). now exists post.
        -- intros (post & H). rewrite append_cons in H. injection H as ->. now exists post.
      * split; [discriminate |].
        intros (post & H). rewrite append_cons in H. now injection H as -> _.
Qed.

Lemma contains_iff (k s : string) :
  Py.contains k s = true <-> exists pre post, s = pre +:+ k +:+ post.
Proof.
  induction s as [| c s IH].
  - simpl. rewrite orb_false_r, startswith_iff. split.
    + intros (post & H). now exists "", post.
    + intros (pre & post & H). destruct pre as [| x pre]; [| discriminate H].
      now exists post.
  - change (Py.contains k (String c s))
      with (Py.startswith k (String c s) || Py.contains k s).
    rewrite orb_true_iff, startswith_iff, IH. split.
    + intros [(post & H) | (pre & post & ->)].
      * now exists "", post.
      * now exists (String c pre), post.
    + intros (pre & post & H). destruct pre as [| x pre].
      * left. now exists post.
      * right. rewrite append_cons in H. injection H as -> ->. now exists pre, post.
Qed.

Lemma lower_append (a b : string) : Py.lower (a +:+ b) = Py.lower a +:+ Py.lower b.
Proof.
  induction a as [| x a IH]; [reflexivity |].
  rewrite append_cons. simpl. rewrite append_cons. now f_equal.
Qed.

Lemma lower_split (s a b : string) :
  Py.lower s = a +:+ b ->
  exists a' b', s = a' +:+ b' /\ Py.lower a' = a /\ Py.lower b' = b.
Proof.
  revert s. induction a as [| x a IH]; intros s H.
  - now exists "", s.
  - destruct s as [| c s]; [discriminate H |].
    rewrite append_cons in H. simpl in H. injection H as Hx Hrest.
    destruct (IH s Hrest) as (a' & b' & -> & Ha & Hb).
    exists (String c a'), b'. repeat split; [| assumption].
    simpl. now rewrite Hx, Ha.
Qed.

Lemma mentions_iff (k name : string) :
  mentions k name <-> Py.contains k (Py.lower name) = true.
Proof.
  rewrite contains_iff. split.
  - intros (pre & mid & post & -> & <-).
    exists (Py.lower pre), (Py.lower post). now rewrite !lower_append.
  - intros (pre & post & H).
    destruct (lower_split _ _ _ H) as (pre' & rest & -> & _ & Hrest).
    destruct (lower_split _ _ _ Hrest) as (mid & post' & -> & Hmid & _).
    now exists pre', mid, post'.
Qed.

Lemma currency_named_iff (name : string) :
  currency_named name <->
  existsb (fun k => Py.contains k (Py.lower name)) currency_keywords = true.
Proof.
  rewrite existsb_exists. unfold currency_named. split.
  - intros (k & Hk & Hm). exists k. split; [now apply list_elem_of_In | now apply mentions_iff].
  - intros (k & Hk & Hc). exists k. split; [now apply list_elem_of_In | now apply mentions_iff].
Qed.

(** ** Column inference *)

(** C3.  The number format is a function of the column's dtype and name
    alone: a date/time column gets "yyyy-mm-dd", a boolean column nothing, an
    integer or floating-point column "$#,##0.00" when its name contains one
    of the six keywords case-insensitively and "#,##0.00" when it does not,
    any other column nothing; replacing the cell values changes nothing.  A
    floating-point "Total Sales" gets the currency format and an integer
    "Quantity" the generic one. *)
Theorem auto_number_format_rule (series : Series) (vs : list cell) :
  match kind_of (s_dtype series) with
  | KDate => auto_number_format series = Some "yyyy-mm-dd"
  | KBool => auto_number_format series = None
  | KNumeric =>
      (currency_named (s_name series) /\ auto_number_format series = Some "$#,##0.00") \/
      (~ currency_named (s_name series) /\ auto_number_format series = Some "#,##0.00")
  | KOther => auto_number_format series = None
  end /\
  auto_number_format (with_values series vs) = auto_number_format series /\
  auto_number_format {| s_name := "Total Sales"; s_dtype := Float; s_values := vs |}
    = Some "$#,##0.00" /\
  auto_number_format {| s_name := "Quantity"; s_dtype := Int; s_values := vs |}
    = Some "#,##0.00".
Proof.
  split; [| repeat split; reflexivity].
  assert (Hnum : is_integer_dtype (s_dtype series) || is_float_dtype (s_dtype series) = true ->
                 is_datetime64_any_dtype (s_dtype series) = false ->
                 is_bool_dtype (s_dtype series) = false ->
                 (currency_named (s_name series) /\ auto_number_format series = Some "$#,##0.00") \/
                 (~ currency_named (s_name series) /\ auto_number_format series = Some "#,##0.00")).
  { intros Hn Hd Hb. unfold auto_number_format. rewrite Hd, Hb, Hn.
    destruct (existsb _ currency_keywords) eqn:He.
    - left. split; [now apply currency_named_iff | reflexivity].
    - right. split; [| reflexivity].
      intros Hc. apply currency_named_iff in Hc. congruence. }
  destruct (s_dtype series) eqn:Hd; simpl;
    try (unfold auto_number_format; rewrite Hd; reflexivity);
    apply Hnum; reflexivity.
Qed.

(** *** Column width *)

Lemma py_max_lower (x : Z) (xs : list Z) : x <= py_max x xs.
Proof.
  unfold py_max. revert x. induction xs as [| y xs IH]; intros x; simpl; [lia |].
  specialize (IH (Z.max x y)). lia.
Qed.

Lemma py_max_upper (x : Z) (xs : list Z) : forall y, y ∈ x :: xs -> y <= py_max x xs.
Proof.
  unfold py_max. revert x. induction xs as [| z xs IH]; intros x y Hy; simpl.
  - apply list_elem_of_singleton in Hy. lia.
  - apply elem_of_cons in Hy as [-> | Hy].
    + pose proof (py_max_lower (Z.max x z) xs) as H. unfold py_max in H. lia.
    + apply elem_of_cons in Hy as [-> | Hy].
      * pose proof (py_max_lower (Z.max x z) xs) as H. unfold py_max in H. lia.
      * apply IH. now right.
Qed.

Lemma py_max_attained (x : Z) (xs : list Z) : py_max x xs ∈ x :: xs.
Proof.
  unfold py_max. revert x. induction xs as [| z xs IH]; intros x; simpl.
  - left.
  - specialize (IH (Z.max x z)). apply elem_of_cons in IH as [Heq | Hin].
    + rewrite Heq. destruct (Z.max_spec x z) as [[_ ->] | [_ ->]].
      * right. left.
      * left.
    + right. now right.
Qed.

Lemma py_max_mono (x y : Z) (xs ys : list Z) :
  x <= y -> Forall2 Z.le xs ys -> py_max x xs <= py_max y ys.
Proof.
  unfold py_max. intros Hxy Hall. revert x y Hxy.
  induction Hall as [| a b xs ys Hab _ IH]; intros x y Hxy; simpl; [exact Hxy |].
  apply IH. lia.
Qed.

Lemma Forall2_le_insert (xs : list Z) (i : nat) (x y : Z) :
  xs !! i = Some x -> x <= y -> Forall2 Z.le xs (<[i := y]> xs).
Proof.
  revert i. induction xs as [| a xs IH]; intros i Hi Hxy; [constructor |].
  destruct i as [| i]; simpl in *.
  - injection Hi as ->. constructor; [exact Hxy |].
    apply Forall2_same_length_lookup_2; [reflexivity |].
    intros j u v Hu Hv. rewrite Hu in Hv. injection Hv as ->. lia.
  - constructor; [lia | now apply IH].
Qed.

Lemma best_width_lengths (series : Series) (max_width : Z) :
  best_width series max_width =
  Z.min (py_max (Py.len (s_name series))
                (map (fun v => Py.len (astype_str v)) (s_values series)) + 2)
        max_width.
Proof. unfold best_width. now rewrite map_map. Qed.

(** C8.  The computed width is the largest text length among the header and
    every rendered cell, plus 2, capped: it never exceeds the cap (60 by
    default), and replacing one cell by a value whose text is at least as
    long never makes the width smaller. *)
Theorem best_width_monotone_bounded (series : Series) (max_width : Z)
    (i : nat) (v v' : cell)
    (Hi : s_values series !! i = Some v)
    (Hlen : Py.len (astype_str v) <= Py.len (astype_str v')) :
  best_width series max_width <= best_width (with_cell series i v') max_width /\
  best_width series max_width <= max_width /\
  best_width series default_max_width <= 60 /\
  exists m,
    m ∈ text_lengths series /\
    (forall n, n ∈ text_lengths series -> n <= m) /\
    best_width series max_width = Z.min (m + 2) max_width.
Proof.
  repeat split.
  - rewrite !best_width_lengths. simpl.
    apply Z.min_le_compat_r, Z.add_le_mono_r.
    apply py_max_mono; [lia |].
    rewrite list_fmap_insert.
    eapply Forall2_le_insert; [| exact Hlen].
    now rewrite list_lookup_fmap, Hi.
  - unfold best_width. lia.
  - unfold best_width, default_max_width. lia.
  - eexists. split; [apply py_max_attained |].
    split; [apply py_max_upper |].
    apply best_width_lengths.
Qed.

Lemma best_width_monotone_bounded_witness :
  let series := {| s_name := "amount"; s_dtype := Int;
                   s_values := [VInt 10; VInt 7] |} in
  best_width series 60 <= best_width (with_cell series 1 (VInt 1234567)) 60 /\
  best_width series 60 <= 60.
Proof.
  intros series.
  pose proof (best_width_monotone_bounded series 60 1 (VInt 7) (VInt 1234567)
                eq_refl ltac:(vm_compute; discriminate)) as H.
  split; [exact (proj1 H) | exact (proj1 (proj2 H))].
Defined.

(** ** What a computation leaves alone *)

Section Preserves.

Context {S : Type} (proj : World -> S) (R : S -> S -> Prop) `{!PreOrder R}.

Lemma preserves_ret {A} (a : A) : preserves proj R (ret a).
Proof. intros w w' r [= <- _]. reflexivity. Qed.

Lemma preserves_lift {A} (x : res A) : preserves proj R (lift x).
Proof. intros w w' r [= <- _]. reflexivity. Qed.

Lemma preserves_bind {A B} (m : M A) (k : A -> M B) :
  preserves proj R m -> (forall a, preserves proj R (k a)) ->
  preserves proj R (bind m k).
Proof.
  intros Hm Hk w w' r. unfold bind.
  destruct (m w) as [w1 [a | e |]] eqn:Hmw.
  - intros Hka. etransitivity; [eapply Hm, Hmw | eapply Hk, Hka].
  - intros [= <- _]. eapply Hm, Hmw.
  - intros [= <- _]. eapply Hm, Hmw.
Qed.

Lemma preserves_for_each {A} (f : A -> M unit) (l : list A) :
  (forall x, preserves proj R (f x)) -> preserves proj R (for_each f l).
Proof.
  intros Hf. induction l as [| x l IH]; simpl.
  - apply preserves_ret.
  - apply preserves_bind; [apply Hf | intros _; exact IH].
Qed.

End Preserves.

Lemma emit_grows engine c : preserves book prefix (emit engine c).
Proof.
  intros w w' r. unfold emit. destruct (engine (book w) c).
  - intros [= <- _]. reflexivity.
  - intros [= <- _]. simpl. now apply prefix_app_r.
Qed.

Lemma emit_stderr engine c : preserves stderr eq (emit engine c).
Proof.
  intros w w' r. unfold emit. destruct (engine (book w) c); now intros [= <- _].
Qed.

Lemma print_err_book line : preserves book eq (print_err line).
Proof. now intros w w' r [= <- _]. Qed.

Lemma print_out_book line : preserves book eq (print_out line).
Proof. now intros w w' r [= <- _]. Qed.

Lemma print_out_stderr line : preserves stderr eq (print_out line).
Proof. now intros w w' r [= <- _]. Qed.

Ltac preserves_step :=
  first
    [ apply preserves_bind; [typeclasses eauto | | intros ?]
    | apply preserves_for_each; [typeclasses eauto | intros [? ?]]
    | apply preserves_ret; typeclasses eauto
    | apply preserves_lift; typeclasses eauto
    | apply emit_grows | apply emit_stderr
    | apply print_err_book | apply print_out_book | apply print_out_stderr
    | match goal with
      | |- preserves _ _ (if ?b then _ else _) => destruct b
      | |- preserves _ _ (match ?x with _ => _ end) => destruct x
      end ].

Lemma write_df_to_sheet_grows engine df sheet_name make_table style autofilter freeze :
  preserves book prefix
    (write_df_to_sheet engine df sheet_name make_table style autofilter freeze).
Proof. unfold write_df_to_sheet. repeat preserves_step. Qed.

Lemma write_df_to_sheet_stderr engine df sheet_name make_table style autofilter freeze :
  preserves stderr eq
    (write_df_to_sheet engine df sheet_name make_table style autofilter freeze).
Proof. unfold write_df_to_sheet. repeat preserves_step. Qed.

Lemma add_chart_from_table_grows engine sheet_name range kind title :
  preserves book prefix (add_chart_from_table engine sheet_name range kind title).
Proof. unfold add_chart_from_table. repeat preserves_step. Qed.

Lemma load_sources_grows engine pandas_read args cfg paths frames :
  preserves book prefix (load_sources engine pandas_read args cfg paths frames).
Proof.
  revert frames. induction paths as [| p rest IH]; intros frames; simpl.
  - apply preserves_ret; typeclasses eauto.
  - apply preserves_bind; [typeclasses eauto | apply preserves_lift; typeclasses eauto |].
    intros df. apply preserves_bind; [typeclasses eauto | apply write_df_to_sheet_grows |].
    intros _. apply IH.
Qed.

Lemma load_sources_stderr engine pandas_read args cfg paths frames :
  preserves stderr eq (load_sources engine pandas_read args cfg paths frames).
Proof.
  revert frames. induction paths as [| p rest IH]; intros frames; simpl.
  - apply preserves_ret; typeclasses eauto.
  - apply preserves_bind; [typeclasses eauto | apply preserves_lift; typeclasses eauto |].
    intros df. apply preserves_bind; [typeclasses eauto | apply write_df_to_sheet_stderr |].
    intros _. apply IH.
Qed.

Lemma build_pivots_from_book pivot_table reset_index specs frames pivots :
  preserves book eq (build_pivots_from pivot_table reset_index specs frames pivots).
Proof.
  revert pivots. induction specs as [| p rest IH]; intros pivots; simpl.
  - apply preserves_ret; typeclasses eauto.
  - destruct (p_source p ≫= _).
    + repeat preserves_step. apply IH.
    + repeat preserves_step. apply IH.
Qed.

(** ** Running the monad *)

Lemma bind_ok_inv {A B} (m : M A) (k : A -> M B) w w' b :
  bind m k w = (w', Ok b) -> exists w1 a, m w = (w1, Ok a) /\ k a w1 = (w', Ok b).
Proof.
  unfold bind. destruct (m w) as [w1 [a | e |]]; [eauto | discriminate | discriminate].
Qed.

Lemma emit_ok_inv engine c w w' u :
  emit engine c w = (w', Ok u) -> book w' = book w ++ [c].
Proof.
  unfold emit. destruct (engine (book w) c); [discriminate |].
  now intros [= <- _].
Qed.

Lemma lift_ok_inv {A} (x : res A) w w' a : lift x w = (w', Ok a) -> x = Ok a /\ w' = w.
Proof. now intros [= -> ->]. Qed.

Lemma elem_of_prefix {A} (x : A) (l1 l2 : list A) : x ∈ l1 -> l1 `prefix_of` l2 -> x ∈ l2.
Proof. intros Hx (k & ->). apply elem_of_app. now left. Qed.

Lemma bind_emit_first {B} engine c (k : unit -> M B) w w' b :
  bind (emit engine c) k w = (w', Ok b) ->
  preserves book prefix (k tt) ->
  c ∈ book w'.
Proof.
  intros Hrun Hk.
  apply bind_ok_inv in Hrun as (w1 & [] & Hemit & Hrest).
  apply emit_ok_inv in Hemit.
  eapply elem_of_prefix; [| eapply Hk, Hrest].
  rewrite Hemit. apply elem_of_app. right. left.
Qed.

(** A sheet that was written successfully was opened under the given name. *)
Lemma write_df_to_sheet_opens engine df sheet_name make_table style autofilter freeze w w' :
  write_df_to_sheet engine df sheet_name make_table style autofilter freeze w = (w', Ok tt) ->
  ToExcel sheet_name df (if make_table then 1 else 0) ∈ book w'.
Proof.
  unfold write_df_to_sheet. intros Hrun.
  eapply bind_emit_first; [exact Hrun |].
  repeat preserves_step.
Qed.

(** ** Sheet names *)

Lemma slice_to_length (n : nat) (s : string) :
  String.length (Py.slice_to n s) = Nat.min n (String.length s).
Proof.
  revert s. induction n as [| n IH]; intros s; [reflexivity |].
  destruct s as [| c s]; [reflexivity |]. simpl. now rewrite IH.
Qed.

Lemma load_sources_opens engine pandas_read args cfg p rest frames w w' frames' :
  load_sources engine pandas_read args cfg (p :: rest) frames w = (w', Ok frames') ->
  exists df,
    read_frame pandas_read p
      (date_cols_for (dataset_name p) (default [] (cfg_sources cfg))) = Ok df /\
    ToExcel (source_sheet_name (arg_sheet_prefix args) p) df
            (if negb (arg_no_table args) then 1 else 0) ∈ book w'.
Proof.
  simpl. intros Hrun.
  apply bind_ok_inv in Hrun as (w1 & df & Hread & Hrun).
  apply lift_ok_inv in Hread as [Hread ->].
  apply bind_ok_inv in Hrun as (w2 & [] & Hwrite & Hrest).
  exists df. split; [exact Hread |].
  eapply elem_of_prefix; [eapply write_df_to_sheet_opens, Hwrite |].
  eapply load_sources_grows, Hrest.
Qed.

Lemma write_pivot_opens engine piv_name piv_df w w' :
  write_pivot engine (piv_name, piv_df) w = (w', Ok tt) ->
  ToExcel (pivot_sheet_name piv_name) piv_df 1 ∈ book w'.
Proof.
  unfold write_pivot. intros Hrun.
  apply bind_ok_inv in Hrun as (w1 & [] & Hwrite & Hrest).
  eapply elem_of_prefix; [eapply (write_df_to_sheet_opens _ _ _ true), Hwrite |].
  apply bind_ok_inv in Hrest as (w2 & range & Hrange & Hchart).
  apply lift_ok_inv in Hrange as [_ ->].
  eapply add_chart_from_table_grows, Hchart.
Qed.

(** C9.  A source sheet is named by the prefix followed by the first 31
    characters of the file stem, and is opened in the workbook under exactly
    that name: nothing is cut after the prefix is added, so with a non-empty
    prefix and a stem of 31 characters or more the name is longer than 31
    characters.  A pivot sheet is named by the first 31 characters of
    "Summary - " followed by the pivot name, so its name never exceeds 31
    characters. *)
Theorem sheet_name_truncation engine pandas_read args cfg p rest frames w w' frames'
    piv_name piv_df v v'
    (Hload : load_sources engine pandas_read args cfg (p :: rest) frames w = (w', Ok frames'))
    (Hpivot : write_pivot engine (piv_name, piv_df) v = (v', Ok tt)) :
  let sheet_prefix := arg_sheet_prefix args in
  source_sheet_name sheet_prefix p = sheet_prefix +:+ Py.slice_to 31 (stem p) /\
  String.length (source_sheet_name sheet_prefix p)
    = (String.length sheet_prefix + Nat.min 31 (String.length (stem p)))%nat /\
  (sheet_prefix <> "" -> (31 <= String.length (stem p))%nat ->
   (31 < String.length (source_sheet_name sheet_prefix p))%nat) /\
  (exists df startrow, ToExcel (source_sheet_name sheet_prefix p) df startrow ∈ book w') /\
  pivot_sheet_name piv_name = Py.slice_to 31 ("Summary - " +:+ piv_name) /\
  String.length (pivot_sheet_name piv_name) = Nat.min 31 (10 + String.length piv_name) /\
  (String.length (pivot_sheet_name piv_name) <= 31)%nat /\
  ToExcel (pivot_sheet_name piv_name) piv_df 1 ∈ book v'.
Proof.
  intros sheet_prefix.
  assert (Hlen : String.length (source_sheet_name sheet_prefix p)
                 = (String.length sheet_prefix + Nat.min 31 (String.length (stem p)))%nat).
  { unfold source_sheet_name, dataset_name. now rewrite length_append, slice_to_length. }
  assert (Hplen : String.length (pivot_sheet_name piv_name)
                  = Nat.min 31 (10 + String.length piv_name)).
  { unfold pivot_sheet_name. rewrite slice_to_length, length_append. reflexivity. }
  repeat split.
  - exact Hlen.
  - intros Hne Hlong. rewrite Hlen.
    assert (0 < String.length sheet_prefix)%nat; [| lia].
    destruct sheet_prefix as [| c s]; [contradiction | cbn [String.length]; lia].
  - destruct (load_sources_opens _ _ _ _ _ _ _ _ _ _ Hload) as (df & _ & Hin). eauto.
  - exact Hplen.
  - rewrite Hplen. lia.
  - eapply write_pivot_opens, Hpivot.
Qed.

Lemma sheet_name_truncation_witness :
  (31 < String.length (source_sheet_name "Q1 " Sample.long_a))%nat /\
  (String.length (pivot_sheet_name "by_region_and_quarter_and_product") <= 31)%nat.
Proof.
  assert (Hload : exists w' frames',
             load_sources Sample.accept_all Sample.pandas_read Sample.args Sample.no_config
               [Sample.long_a] ∅ world0 = (w', Ok frames')).
  { eexists _, _. vm_compute. reflexivity. }
  assert (Hpivot : exists v',
             write_pivot Sample.accept_all
               ("by_region_and_quarter_and_product", Sample.sales_q1) world0 = (v', Ok tt)).
  { eexists. vm_compute. reflexivity. }
  destruct Hload as (w' & frames' & Hload), Hpivot as (v' & Hpivot).
  pose proof (sheet_name_truncation _ _ _ _ _ _ _ _ _ _ _ _ _ _ Hload Hpivot) as H.
  split.
  - apply H; [discriminate | vm_compute; lia].
  - apply H.
Defined.

(** ** Pivot synthesis *)

Section PivotProperties.

Context (pivot_table : DataFrame -> PivotArgs -> res Pivot)
        (reset_index : Pivot -> res DataFrame).

Local Abbreviation build_from := (build_pivots_from pivot_table reset_index).

Lemma build_pivots_from_app l1 l2 frames pivots w :
  build_from (l1 ++ l2) frames pivots w
  = bind (build_from l1 frames pivots) (fun pivots1 => build_from l2 frames pivots1) w.
Proof.
  revert pivots w. induction l1 as [| p l1 IH]; intros pivots w; [reflexivity |].
  simpl. destruct (p_source p ≫= _) as [df |].
  - unfold bind, lift in *.
    destruct (pivot_table df (pivot_args p)) as [pivot | e |]; [| reflexivity..].
    destruct (reset_index (flatten_columns pivot)) as [flat | e |]; [| reflexivity..].
    apply IH.
  - unfold bind, print_err in *. apply IH.
Qed.

(** The pivots built do not depend on what was printed or written before. *)
Lemma build_pivots_from_outcome l frames pivots w w' :
  snd (build_from l frames pivots w) = snd (build_from l frames pivots w').
Proof.
  revert pivots w w'. induction l as [| p l IH]; intros pivots w w'; [reflexivity |].
  simpl. destruct (p_source p ≫= _) as [df |].
  - unfold bind, lift in *.
    destruct (pivot_table df (pivot_args p)) as [pivot | e |]; [| reflexivity..].
    destruct (reset_index (flatten_columns pivot)) as [flat | e |]; [| reflexivity..].
    apply IH.
  - unfold bind, print_err in *. apply IH.
Qed.

Lemma unresolved_step p rest frames pivots w :
  (forall k, p_source p = Some k -> frames !! k = None) ->
  build_from (p :: rest) frames pivots w
  = build_from rest frames pivots (warned (source_warning p) w).
Proof.
  intros Hsrc. simpl.
  assert (p_source p ≫= (fun k => frames !! k) = None) as ->.
  { destruct (p_source p) as [k |]; [now apply Hsrc | reflexivity]. }
  reflexivity.
Qed.

(** What [build_pivots] hands to [pd.pivot_table]: the fill value of the
    specification, 0 when it has none, [dropna=False], and margins only on
    request, all in the one call. *)
Lemma pivot_args_defaults (p : PivotSpec) :
  pa_dropna (pivot_args p) = false /\
  pa_fill_value (pivot_args p) = default (VInt 0) (p_fillna p) /\
  (p_fillna p = None -> pa_fill_value (pivot_args p) = VInt 0) /\
  (p_margins p = None -> pa_margins (pivot_args p) = false) /\
  (p_aggfunc p = None -> pa_aggfunc (pivot_args p) = "sum").
Proof.
  repeat split; unfold pivot_args; simpl; now intros ->.
Qed.

(** C6.  A pivot specification whose source is not a loaded dataset prints
    one warning on the diagnostic stream, adds nothing to the pivots and
    lets the loop go on with the specifications after it: the run of the
    list is the run of the rest from the warned state, wherever the
    specification stands in the list, and the pivots built are those the
    list gives without it. *)
Theorem unresolved_source_skipped (p : PivotSpec) (before after : list PivotSpec)
    (frames : gmap string DataFrame) (pivots pivots1 : list (string * DataFrame))
    (w w1 : World)
    (Hsrc : forall k, p_source p = Some k -> frames !! k = None)
    (Hbefore : build_from before frames pivots w = (w1, Ok pivots1)) :
  build_from (p :: after) frames pivots w
    = build_from after frames pivots (warned (source_warning p) w) /\
  build_from (before ++ p :: after) frames pivots w
    = build_from after frames pivots1 (warned (source_warning p) w1) /\
  stderr (warned (source_warning p) w1) = stderr w1 ++ [source_warning p] /\
  book (warned (source_warning p) w1) = book w1 /\
  stdout (warned (source_warning p) w1) = stdout w1 /\
  snd (build_from (before ++ p :: after) frames pivots w)
    = snd (build_from (before ++ after) frames pivots w).
Proof.
  split; [now apply unresolved_step |].
  split; [| repeat split].
  - rewrite build_pivots_from_app. unfold bind. rewrite Hbefore.
    now apply unresolved_step.
  - rewrite !build_pivots_from_app. unfold bind. rewrite Hbefore.
    rewrite unresolved_step by exact Hsrc.
    apply build_pivots_from_outcome.
Qed.

Lemma build_pivots_from_raises (p : PivotSpec) (before after : list PivotSpec)
    (frames : gmap string DataFrame) (pivots pivots1 : list (string * DataFrame))
    (w w1 : World) (k : string) (df : DataFrame) (e : exn) :
  p_source p = Some k ->
  frames !! k = Some df ->
  (pivot_table df (pivot_args p) = Raise e \/
   exists pivot, pivot_table df (pivot_args p) = Ok pivot /\
                 reset_index (flatten_columns pivot) = Raise e) ->
  build_from before frames pivots w = (w1, Ok pivots1) ->
  build_from (before ++ p :: after) frames pivots w = (w1, Raise e).
Proof.
  intros Hsrc Hdf Hfail Hbefore.
  rewrite build_pivots_from_app. unfold bind at 1. rewrite Hbefore.
  simpl. rewrite Hsrc. simpl. rewrite Hdf.
  unfold bind, lift.
  destruct Hfail as [-> | (pivot & -> & ->)]; reflexivity.
Qed.

End PivotProperties.

(** ** Orchestration *)

Section OrchestratorProperties.

Context (engine : list wcall -> wcall -> option exn)
        (pandas_read : read_call -> res DataFrame)
        (pivot_table : DataFrame -> PivotArgs -> res Pivot)
        (reset_index : Pivot -> res DataFrame).

(** C7 (amended).  Only a missing source is skipped.  When the pivot
    computation of a specification raises, in [pd.pivot_table] or in
    [reset_index], the exception leaves [build_pivots] at that
    specification and then [main]: no specification after it is processed,
    the pivots built before it are dropped with the call, no pivot sheet is
    written and the workbook is not closed. *)
Theorem pivot_failure_propagates (p : PivotSpec) (before after : list PivotSpec)
    (frames : gmap string DataFrame) (pivots1 : list (string * DataFrame))
    (w w1 : World) (k : string) (df : DataFrame) (e : exn)
    (Hsrc : p_source p = Some k)
    (Hdf : frames !! k = Some df)
    (Hfail : pivot_table df (pivot_args p) = Raise e \/
             exists pivot, pivot_table df (pivot_args p) = Ok pivot /\
                           reset_index (flatten_columns pivot) = Raise e)
    (Hbefore : build_pivots pivot_table reset_index before frames w = (w1, Ok pivots1)) :
  build_pivots pivot_table reset_index (before ++ p :: after) frames w = (w1, Raise e) /\
  book w1 = book w /\
  forall args cfg q qs w0,
    cfg_pivots cfg = Some (before ++ p :: after) ->
    (emit engine (ExcelWriter (arg_out args)) ;;;
     load_sources engine pandas_read args cfg (q :: qs) ∅) w0 = (w, Ok frames) ->
    main engine pandas_read pivot_table reset_index args cfg (q :: qs) w0 = (w1, Raise e).
Proof.
  assert (Hraise : build_pivots pivot_table reset_index (before ++ p :: after) frames w
                   = (w1, Raise e)).
  { unfold build_pivots in *. eapply build_pivots_from_raises; eassumption. }
  split; [exact Hraise |].
  split; [symmetry; eapply build_pivots_from_book, Hbefore |].
  intros args cfg q qs w0 Hcfg Hload.
  apply bind_ok_inv in Hload as (wa & [] & Hopen & Hload).
  unfold main. rewrite Hcfg.
  assert (Hcons : exists x xs, before ++ p :: after = x :: xs).
  { destruct before; simpl; eauto. }
  destruct Hcons as (x & xs & Hcons). rewrite Hcons in *.
  unfold bind at 1. rewrite Hopen.
  unfold bind at 1. rewrite Hload.
  unfold bind at 1. unfold bind at 1. rewrite Hraise. reflexivity.
Qed.

End OrchestratorProperties.

(** *** Examples of pivot runs *)

Lemma unresolved_source_skipped_witness :
  build_pivots_from Sample.pivot_table Sample.reset_index
    ([Sample.first_pivot] ++ Sample.lost_pivot :: [Sample.good_pivot])
    Sample.frames [] world0
  = build_pivots_from Sample.pivot_table Sample.reset_index
      [Sample.good_pivot] Sample.frames [("first", Sample.sales_q1)]
      (warned "[warn] pivot source not found: sales_2019" world0).
Proof.
  refine (proj1 (proj2
            (unresolved_source_skipped Sample.pivot_table Sample.reset_index
               Sample.lost_pivot [Sample.first_pivot] [Sample.good_pivot]
               Sample.frames [] [("first", Sample.sales_q1)] world0 world0 _ _))).
  - intros k [= <-]. vm_compute. reflexivity.
  - vm_compute. reflexivity.
Defined.

(** C7, as stated, fails: with a specification that names a missing value
    column ahead of a sound one, the sound one alone gives its pivot, and the
    list of both gives the exception of the first and no pivot at all. *)
Lemma pivot_failure_not_isolated :
  snd (build_pivots Sample.pivot_table Sample.reset_index
         [Sample.good_pivot] Sample.frames world0)
    = Ok [("good", Sample.sales_q1)] /\
  snd (build_pivots Sample.pivot_table Sample.reset_index
         [Sample.bad_pivot; Sample.good_pivot] Sample.frames world0)
    = Raise (KeyError "missing") /\
  ~ failure_isolated Sample.pivot_table Sample.reset_index Sample.frames
      [] Sample.bad_pivot [Sample.good_pivot] world0.
Proof.
  split; [vm_compute; reflexivity |].
  split; [vm_compute; reflexivity |].
  unfold failure_isolated. vm_compute. discriminate.
Qed.

Lemma pivot_failure_propagates_witness :
  main Sample.accept_all Sample.pandas_read Sample.pivot_table Sample.reset_index
    Sample.args Sample.pivots_config [Sample.q1] world0
  = (Sample.loaded, Raise (KeyError "missing")).
Proof.
  refine (proj2 (proj2
            (pivot_failure_propagates Sample.accept_all Sample.pandas_read
               Sample.pivot_table Sample.reset_index
               Sample.bad_pivot [Sample.first_pivot] [Sample.good_pivot]
               Sample.frames [("first", Sample.sales_q1)]
               Sample.loaded Sample.loaded "sales_q1" Sample.sales_q1
               (KeyError "missing") _ _ _ _))
            Sample.args Sample.pivots_config Sample.q1 [] world0 _ _).
  - reflexivity.
  - vm_compute. reflexivity.
  - left. vm_compute. reflexivity.
  - vm_compute. reflexivity.
  - reflexivity.
  - vm_compute. reflexivity.
Defined.

(** ** The dataset registry *)

Section RegistryProperties.

Context (engine : list wcall -> wcall -> option exn)
        (pandas_read : read_call -> res DataFrame)
        (pivot_table : DataFrame -> PivotArgs -> res Pivot)
        (reset_index : Pivot -> res DataFrame).

Local Abbreviation load := (load_sources engine pandas_read).

Lemma load_sources_app args cfg l1 l2 frames w :
  load args cfg (l1 ++ l2) frames w
  = bind (load args cfg l1 frames) (fun frames1 => load args cfg l2 frames1) w.
Proof.
  revert frames w. induction l1 as [| p l1 IH]; intros frames w; [reflexivity |].
  simpl. unfold bind, lift in *.
  destruct (read_frame pandas_read p _) as [df | e |]; [| reflexivity..].
  destruct (write_df_to_sheet _ _ _ _ _ _ _ w) as [w1 [[] | e |]]; [| reflexivity..].
  apply IH.
Qed.

(** Loading files of other names leaves an entry of the registry alone. *)
Lemma load_sources_other args cfg l frames w w' frames' (k : string) :
  (forall q, q ∈ l -> dataset_name q <> k) ->
  load args cfg l frames w = (w', Ok frames') ->
  frames' !! k = frames !! k.
Proof.
  revert frames w. induction l as [| p l IH]; intros frames w Hother Hrun.
  - now injection Hrun as _ <-.
  - simpl in Hrun.
    apply bind_ok_inv in Hrun as (w1 & df & _ & Hrun).
    apply bind_ok_inv in Hrun as (w2 & [] & _ & Hrun).
    apply IH in Hrun; [| intros q Hq; apply Hother; now right].
    rewrite Hrun. apply lookup_insert_ne, Hother. left.
Qed.

(** C10.  The registry is keyed by the first 31 characters of the file
    stem.  After a load that succeeds, the entry under the key of an input
    is the frame read from the last input with that key, whatever was
    loaded under it before; nothing is printed about it; and a pivot
    specification that names the key is computed on that frame. *)
Theorem registry_last_wins (args : Args) (cfg : Config)
    (earlier later : list Path) (p : Path)
    (frames frames' : gmap string DataFrame) (w w' : World)
    (Hlater : forall q, q ∈ later -> dataset_name q <> dataset_name p)
    (Hload : load args cfg (earlier ++ p :: later) frames w = (w', Ok frames')) :
  exists df,
    read_frame pandas_read p
      (date_cols_for (dataset_name p) (default [] (cfg_sources cfg))) = Ok df /\
    frames' !! Py.slice_to 31 (stem p) = Some df /\
    stderr w' = stderr w /\
    forall spec rest pivots v,
      p_source spec = Some (dataset_name p) ->
      build_pivots_from pivot_table reset_index (spec :: rest) frames' pivots v
      = (pivot <~ lift (pivot_table df (pivot_args spec)) ;;
         flat <~ lift (reset_index (flatten_columns pivot)) ;;
         build_pivots_from pivot_table reset_index rest frames'
           (dict_set (default ("pivot_" +:+ dataset_name p) (p_name spec)) flat pivots)) v.
Proof.
  pose proof (load_sources_stderr _ _ _ _ _ _ _ _ _ Hload) as Hquiet.
  rewrite load_sources_app in Hload.
  apply bind_ok_inv in Hload as (w1 & frames1 & _ & Hload).
  simpl in Hload.
  apply bind_ok_inv in Hload as (w2 & df & Hread & Hload).
  apply lift_ok_inv in Hread as [Hread ->].
  apply bind_ok_inv in Hload as (w3 & [] & _ & Hload).
  apply (load_sources_other _ _ _ _ _ _ _ (dataset_name p) Hlater) in Hload.
  rewrite lookup_insert_eq in Hload.
  exists df. split; [exact Hread |]. split; [exact Hload |]. split; [now symmetry |].
  intros spec rest pivots v Hspec. simpl. rewrite Hspec. simpl.
  unfold dataset_name in *. rewrite Hload. reflexivity.
Qed.

End RegistryProperties.

Lemma registry_last_wins_witness :
  exists w' frames',
    load_sources Sample.accept_all Sample.pandas_read Sample.args Sample.no_config
      [Sample.long_a; Sample.long_b] ∅ world0 = (w', Ok frames') /\
    dataset_name Sample.long_a = dataset_name Sample.long_b /\
    frames' !! "quarterly_sales_report_northern" = Some Sample.sales_q2.
Proof.
  assert (Hload : exists w' frames',
             load_sources Sample.accept_all Sample.pandas_read Sample.args Sample.no_config
               ([Sample.long_a] ++ Sample.long_b :: []) ∅ world0 = (w', Ok frames')).
  { eexists _, _. vm_compute. reflexivity. }
  destruct Hload as (w' & frames' & Hload).
  exists w', frames'. split; [exact Hload |]. split; [reflexivity |].
  destruct (registry_last_wins Sample.accept_all Sample.pandas_read
              Sample.pivot_table Sample.reset_index Sample.args Sample.no_config
              [Sample.long_a] [] Sample.long_b ∅ frames' world0 w')
    as (df & Hread & Hkey & _).
  - intros q Hq. inversion Hq.
  - exact Hload.
  - assert (Hk : Py.slice_to 31 (stem Sample.long_b) = "quarterly_sales_report_northern")
      by reflexivity.
    rewrite Hk in Hkey. rewrite Hkey. f_equal.
    vm_compute in Hread. now injection Hread as <-.
Defined.

(** ** Chart binder *)

Lemma a1_loop_zero fuel acc : a1_loop fuel 0 acc = Some acc.
Proof. destruct fuel; reflexivity. Qed.

Lemma to_letters_single (c : Z) :
  0 <= c <= 25 -> to_letters c = Some (String (Py.chr (65 + c)) "").
Proof.
  intros Hc. unfold to_letters, to_letters_fuel, a1_enough.
  replace (Z.to_nat (c + 1)) with (S (Z.to_nat c)) by lia.
  simpl. destruct (Z.eqb_spec (c + 1) 0) as [| _]; [lia |].
  replace (c + 1 - 1) with c by lia.
  rewrite Z.mod_small, Z.div_small by lia.
  apply a1_loop_zero.
Qed.

Lemma isdigit_pretty_N_char (d : N) : Py.isdigit (pretty_N_char d) = true.
Proof. unfold pretty_N_char. repeat case_match; reflexivity. Qed.

Lemma all_digits_pretty_N_go (x : N) (s : string) :
  all_chars Py.isdigit s = true -> all_chars Py.isdigit (pretty_N_go x s) = true.
Proof.
  revert s. induction (N.lt_wf_0 x) as [x _ IH]. intros s Hs.
  destruct (N.eq_dec x 0%N) as [-> | Hx].
  - now rewrite pretty_N_go_0.
  - rewrite pretty_N_go_step by lia.
    apply IH; [apply N.div_lt; lia |].
    simpl. now rewrite isdigit_pretty_N_char.
Qed.

Lemma all_digits_str_int (n : Z) : 0 <= n -> all_chars Py.isdigit (Py.str_int n) = true.
Proof.
  intros Hn. unfold Py.str_int, pretty, pretty_Z.
  destruct n as [| p | p]; [reflexivity | | lia].
  unfold pretty, pretty_positive, pretty, pretty_N.
  destruct (decide (N.pos p = 0%N)); [discriminate |].
  now apply all_digits_pretty_N_go.
Qed.

Lemma all_chars_impl (P Q : ascii -> bool) (s : string) :
  (forall c, P c = true -> Q c = true) ->
  all_chars P s = true -> all_chars Q s = true.
Proof.
  intros HPQ. induction s as [| c s IH]; [reflexivity |].
  simpl. rewrite !andb_true_iff. intros [Hc Hs]. auto.
Qed.

Lemma split_no_sep (sep : ascii) (s : string) :
  all_chars (fun c => negb (Ascii.eqb c sep)) s = true -> Py.split sep s = [s].
Proof.
  induction s as [| c s IH]; [reflexivity |].
  simpl. rewrite andb_true_iff, negb_true_iff. intros [Hc Hs].
  now rewrite Hc, IH.
Qed.

Lemma digit_is_not_colon (c : ascii) :
  Py.isdigit c = true -> negb (Ascii.eqb c ":") = true.
Proof.
  unfold Py.isdigit. rewrite andb_true_iff, negb_true_iff, !Z.leb_le.
  intros [_ Hc]. destruct (Ascii.eqb_spec c ":") as [-> | _]; [| reflexivity].
  vm_compute in Hc. contradiction.
Qed.

Lemma letter_is_not_colon (k : Z) :
  0 <= k <= 25 -> negb (Ascii.eqb (Py.chr (65 + k)) ":") = true.
Proof.
  intros Hk. rewrite negb_true_iff.
  destruct (Ascii.eqb_spec (Py.chr (65 + k)) ":") as [Heq | _]; [| reflexivity].
  apply (f_equal Py.ord) in Heq. rewrite ord_chr in Heq by lia.
  change (Py.ord ":") with 58 in Heq. lia.
Qed.

(** C5 (amended).  For the range [main] rebuilds from a pivot result of R
    data rows and C columns, 2 <= C <= 26, the binder asks for one series:
    its categories run from A1, coordinate (0,0), to coordinate (0,R), and
    its values from B1, coordinate (1,0), to coordinate (C-1,R).  Both start
    in row 0, the header row, and cover every row of the range. *)
Theorem chart_ranges_from_main engine (sheet_name kind : string) (title : option string)
    (piv_df : DataFrame)
    (Hcols : 2 <= Z.of_nat (length (df_columns piv_df)) <= 26) :
  let R := Z.of_nat (df_rows piv_df) in
  let C := Z.of_nat (length (df_columns piv_df)) in
  exists range top_left bottom_left top_second bottom_right,
    table_range piv_df = Some range /\
    a1 0 0 = Some top_left /\ top_left = "A1" /\
    a1 0 R = Some bottom_left /\
    a1 1 0 = Some top_second /\ top_second = "B1" /\
    a1 (C - 1) R = Some bottom_right /\
    forall w,
      add_chart_from_table engine sheet_name range kind title w
      = (emit engine (AddChart kind) ;;;
         emit engine
           (AddSeries ("=" +:+ sheet_name +:+ "!" +:+ top_left +:+ ":" +:+ bottom_left)
                      ("=" +:+ sheet_name +:+ "!" +:+ top_second +:+ ":" +:+ bottom_right)) ;;;
         (match title with
          | Some t => if Py.truthy t then emit engine (SetTitle t) else ret tt
          | None => ret tt
          end) ;;;
         emit engine (InsertChart sheet_name "B2")) w.
Proof.
  intros R C.
  pose proof (to_letters_single (C - 1) ltac:(lia)) as Hlast.
  set (last := Py.chr (65 + (C - 1))) in *.
  set (row := Py.str_int (R + 1)).
  assert (Hend : a1 (C - 1) R = Some (String last row)).
  { unfold a1, a1_fuel. unfold to_letters in Hlast. now rewrite Hlast. }
  assert (Hsplit : Py.split ":" ("A1" +:+ ":" +:+ String last row) = ["A1"; String last row]).
  { assert (Hs : Py.split ":" (String last row) = [String last row]).
    { apply split_no_sep. simpl. rewrite andb_true_iff. split.
      - apply letter_is_not_colon. lia.
      - eapply all_chars_impl; [apply digit_is_not_colon |].
        apply all_digits_str_int. lia. }
    change ("A1" +:+ ":" +:+ String last row)
      with (String "A" (String "1" (String ":" (String last row)))).
    simpl. simpl in Hs. now rewrite Hs. }
  exists ("A1" +:+ ":" +:+ String last row), "A1", ("A" +:+ row), "B1", (String last row).
  repeat split.
  - unfold table_range, shape. fold R C. now rewrite Hend.
  - exact Hend.
  - intros w. unfold add_chart_from_table. rewrite Hsplit. reflexivity.
Qed.

Lemma chart_ranges_from_main_witness :
  add_chart_from_table Sample.accept_all "Summary - by_region" "A1:C4" "column"
    (Some "by_region") world0
  = ({| book := [AddChart "column";
                 AddSeries "=Summary - by_region!A1:A4" "=Summary - by_region!B1:C4";
                 SetTitle "by_region";
                 InsertChart "Summary - by_region" "B2"];
        stderr := []; stdout := [] |}, Ok tt).
Proof.
  destruct (chart_ranges_from_main Sample.accept_all "Summary - by_region" "column"
              (Some "by_region") Sample.by_region_result ltac:(simpl; lia))
    as (range & tl & bl & ts & br & Hrange & _ & -> & Hbl & _ & -> & Hbr & Hrun).
  vm_compute in Hrange. injection Hrange as <-.
  vm_compute in Hbl. injection Hbl as <-.
  vm_compute in Hbr. injection Hbr as <-.
  rewrite Hrun. vm_compute. reflexivity.
Defined.

(** C5, as stated, fails: for a pivot result of three data rows and three
    columns the specification's ranges are A2:A4 and B2:C4, the data rows
    alone, while the series the binder asks for is A1:A4 with B1:C4, header
    row included. *)
Lemma chart_ranges_include_header :
  table_range Sample.by_region_result = Some "A1:C4" /\
  data_rows_categories "Summary - by_region" 3 = Some "=Summary - by_region!A2:A4" /\
  data_rows_values "Summary - by_region" 3 3 = Some "=Summary - by_region!B2:C4" /\
  book (fst (add_chart_from_table Sample.accept_all "Summary - by_region" "A1:C4"
               "column" None world0))
    = [AddChart "column";
       AddSeries "=Summary - by_region!A1:A4" "=Summary - by_region!B1:C4";
       InsertChart "Summary - by_region" "B2"] /\
  ~ (exists categories values,
       data_rows_categories "Summary - by_region" 3 = Some categories /\
       data_rows_values "Summary - by_region" 3 3 = Some values /\
       AddSeries categories values ∈
         book (fst (add_chart_from_table Sample.accept_all "Summary - by_region" "A1:C4"
                      "column" None world0))).
Proof.
  repeat split; try (vm_compute; reflexivity).
  intros (categories & values & Hc & Hv & Hin).
  vm_compute in Hc. injection Hc as <-.
  vm_compute in Hv. injection Hv as <-.
  vm_compute in Hin.
  repeat (apply elem_of_cons in Hin as [Hin | Hin]; [discriminate Hin |]).
  inversion Hin.
Qed.

(** Past column Z the binder's category range keeps the letters of the last
    column: for a table of 27 columns it runs from A1 to AA5. *)
Example chart_ranges_wide_table :
  book (fst (add_chart_from_table Sample.accept_all "S" "A1:AA5" "column" None world0))
  = [AddChart "column"; AddSeries "=S!A1:AA5" "=S!B1:AA5"; InsertChart "S" "B2"].
Proof. vm_compute. reflexivity. Qed.

(** * Further properties of the program *)

(** ** The column letters as a numeral system *)

Lemma chr_ord (c : ascii) : Py.chr (Py.ord c) = c.
Proof. unfold Py.chr, Py.ord. rewrite N2Z.id. apply ascii_N_embedding. Qed.

Lemma ord_bound (c : ascii) : 0 <= Py.ord c < 256.
Proof.
  unfold Py.ord. pose proof (N_ascii_bounded c). lia.
Qed.

Lemma is_upper_chr (r : Z) : 0 <= r < 26 -> is_upper (Py.chr (65 + r)) = true.
Proof.
  intros Hr. unfold is_upper. rewrite ord_chr by lia.
  apply andb_true_iff. split; apply Z.leb_le; lia.
Qed.

Lemma is_upper_ord (c : ascii) : is_upper c = true -> 65 <= Py.ord c <= 90.
Proof.
  unfold is_upper. rewrite andb_true_iff, !Z.leb_le. tauto.
Qed.

Lemma a1_loop_upper fuel n acc s :
  0 <= n -> all_chars is_upper acc = true ->
  a1_loop fuel n acc = Some s ->
  all_chars is_upper s = true /\ (0 < n -> s <> "").
Proof.
  revert n acc. induction fuel as [| fuel IH]; intros n acc Hn Hacc; simpl.
  - destruct (Z.eqb_spec n 0); [| discriminate].
    intros [= <-]. split; [exact Hacc | lia].
  - destruct (Z.eqb_spec n 0).
    + intros [= <-]. split; [exact Hacc | lia].
    + intros Hloop.
      pose proof (Z.mod_pos_bound (n - 1) 26 ltac:(lia)) as Hr.
      assert (Hnext : 0 <= (n - 1) / 26) by (apply Z.div_pos; lia).
      destruct (Z.eq_dec ((n - 1) / 26) 0) as [Hz | Hnz].
      * rewrite Hz in Hloop. rewrite a1_loop_zero in Hloop. injection Hloop as <-.
        split; [| discriminate]. simpl. now rewrite is_upper_chr.
      * apply IH in Hloop; [| exact Hnext | simpl; now rewrite is_upper_chr].
        split; [tauto |]. intros _. apply Hloop. lia.
Qed.

(** Running the loop on the value of [s] puts [s] in front of the
    accumulator, one unit of fuel per letter. *)
Lemma a1_loop_letters (s : string) :
  all_chars is_upper s = true ->
  forall (k : nat) (v : Z) (acc : string),
    0 <= v ->
    a1_loop (String.length s + k) (letters_value v s) acc = a1_loop k v (s +:+ acc).
Proof.
  induction s as [| c s IH]; intros Hs k v acc Hv; [reflexivity |].
  simpl in Hs. apply andb_true_iff in Hs as [Hc Hs].
  apply is_upper_ord in Hc.
  cbn [String.length letters_value].
  replace (S (String.length s) + k)%nat with (String.length s + S k)%nat by lia.
  rewrite IH by (assumption || lia).
  cbn [a1_loop].
  destruct (Z.eqb_spec (v * 26 + (Py.ord c - 64)) 0) as [| _]; [lia |].
  replace (v * 26 + (Py.ord c - 64) - 1) with (Py.ord c - 65 + v * 26) by lia.
  rewrite Z.mod_add, Z.div_add by lia.
  rewrite Z.mod_small, Z.div_small by lia.
  replace (65 + (Py.ord c - 65)) with (Py.ord c) by lia.
  now rewrite chr_ord.
Qed.

Lemma letters_value_lower (s : string) (v : Z) :
  all_chars is_upper s = true -> 0 <= v ->
  v + Z.of_nat (String.length s) <= letters_value v s.
Proof.
  revert v. induction s as [| c s IH]; intros v Hs Hv; simpl; [lia |].
  simpl in Hs. apply andb_true_iff in Hs as [Hc Hs].
  apply is_upper_ord in Hc.
  specialize (IH (v * 26 + (Py.ord c - 64)) Hs ltac:(lia)). lia.
Qed.

Lemma to_letters_of_letters (s : string) :
  s <> "" -> all_chars is_upper s = true ->
  0 <= from_letters s /\ to_letters (from_letters s) = Some s.
Proof.
  intros Hne Hs.
  pose proof (letters_value_lower s 0 Hs ltac:(lia)) as Hlow.
  assert (0 < String.length s)%nat by (destruct s; [contradiction | simpl; lia]).
  unfold from_letters. split; [lia |].
  unfold to_letters, to_letters_fuel, a1_enough.
  replace (letters_value 0 s - 1 + 1) with (letters_value 0 s) by lia.
  replace (Z.to_nat (letters_value 0 s))
    with (String.length s + (Z.to_nat (letters_value 0 s) - String.length s))%nat by lia.
  rewrite a1_loop_letters by (assumption || lia).
  rewrite a1_loop_zero. now rewrite append_nil_r.
Qed.

Lemma to_letters_upper (c : Z) (s : string) :
  0 <= c -> to_letters c = Some s -> s <> "" /\ all_chars is_upper s = true.
Proof.
  intros Hc Hs. unfold to_letters, to_letters_fuel in Hs.
  apply a1_loop_upper in Hs; [| lia | reflexivity].
  split; [apply Hs; lia | tauto].
Qed.

(** X1.  The letters of a non-negative column are never empty and are all
    capitals A to Z. *)
Theorem to_letters_capitals (c : Z) (s : string)
    (Hc : 0 <= c) (Hs : to_letters c = Some s) :
  s <> "" /\ all_chars is_upper s = true.
Proof. now apply (to_letters_upper c). Qed.

Lemma to_letters_capitals_witness :
  "AB" <> "" /\ all_chars is_upper "AB" = true.
Proof. exact (to_letters_capitals 27 "AB" ltac:(lia) eq_refl). Defined.

(** X2.  Every non-empty text of capitals A to Z is the letters of exactly
    one non-negative column. *)
Theorem to_letters_onto (s : string)
    (Hne : s <> "") (Hs : all_chars is_upper s = true) :
  exists c, 0 <= c /\ to_letters c = Some s /\
            forall c', 0 <= c' -> to_letters c' = Some s -> c' = c.
Proof.
  destruct (to_letters_of_letters s Hne Hs) as [Hpos Hto].
  exists (from_letters s). repeat split; [exact Hpos | exact Hto |].
  intros c' Hc' Hc's. symmetry. now apply to_letters_decodes.
Qed.

Lemma to_letters_onto_witness :
  exists c, 0 <= c /\ to_letters c = Some "XFD" /\
            forall c', 0 <= c' -> to_letters c' = Some "XFD" -> c' = c.
Proof. exact (to_letters_onto "XFD" ltac:(discriminate) eq_refl). Defined.

Lemma a1_loop_more_fuel fuel fuel' n acc s :
  a1_loop fuel n acc = Some s -> (fuel <= fuel')%nat -> a1_loop fuel' n acc = Some s.
Proof.
  revert fuel' n acc. induction fuel as [| fuel IH]; intros fuel' n acc; simpl.
  - destruct (Z.eqb_spec n 0) as [-> |]; [| discriminate].
    intros [= <-] _. apply a1_loop_zero.
  - destruct (Z.eqb_spec n 0) as [-> | Hn].
    + intros [= <-] _. apply a1_loop_zero.
    + intros Hloop Hle. destruct fuel' as [| fuel']; [lia |].
      simpl. destruct (Z.eqb_spec n 0); [contradiction |].
      apply IH; [exact Hloop | lia].
Qed.

(** X3.  The answer of the A1 helper does not depend on the fuel of the
    model: whenever some fuel gives an address, it is the address [a1] gives.
    For a column index of -2 or less the loop never ends, whatever the fuel;
    for -1 the address is the bare row number. *)
Theorem a1_fuel_adequate (fuel : nat) (col_idx row_idx : Z) :
  (forall s, a1_fuel fuel col_idx row_idx = Some s -> a1 col_idx row_idx = Some s) /\
  (col_idx <= -2 -> a1_fuel fuel col_idx row_idx = None) /\
  (-1 <= col_idx -> is_Some (a1 col_idx row_idx)) /\
  a1 (-1) row_idx = Some (Py.str_int (row_idx + 1)).
Proof.
  repeat split.
  - intros s. unfold a1, a1_fuel, to_letters_fuel.
    destruct (a1_loop fuel (col_idx + 1) "") as [letters |] eqn:Hloop; [| discriminate].
    intros [= <-].
    destruct (Z_lt_le_dec col_idx (-1)) as [Hneg | Hpos].
    + rewrite a1_loop_negative in Hloop by lia. discriminate.
    + destruct (a1_loop_enough (a1_enough col_idx) (col_idx + 1) "") as [t Ht].
      { unfold a1_enough. lia. }
      rewrite Ht. f_equal. f_equal.
      destruct (Nat.le_ge_cases fuel (a1_enough col_idx)) as [Hle | Hge].
      * apply (a1_loop_more_fuel _ _ _ _ _ Hloop) in Hle. congruence.
      * apply (a1_loop_more_fuel _ _ _ _ _ Ht) in Hge. congruence.
  - intros Hneg. unfold a1_fuel, to_letters_fuel.
    now rewrite a1_loop_negative by lia.
  - intros Hpos. unfold a1, a1_fuel.
    destruct (to_letters_returns col_idx Hpos) as [s Hs].
    unfold to_letters in Hs. rewrite Hs. eauto.
Qed.

Lemma a1_fuel_adequate_witness :
  a1 27 4 = Some "AB5" /\ a1_fuel 1000 (-2) 4 = None.
Proof.
  pose proof (a1_fuel_adequate 1000 27 4) as H27.
  pose proof (a1_fuel_adequate 1000 (-2) 4) as Hneg.
  split.
  - apply (proj1 H27). vm_compute. reflexivity.
  - apply (proj1 (proj2 Hneg)). lia.
Defined.

Lemma to_letters_double (c : Z) :
  26 <= c <= 701 ->
  to_letters c = Some (String (Py.chr (65 + (c / 26 - 1)))
                         (String (Py.chr (65 + c mod 26)) "")).
Proof.
  intros Hc. unfold to_letters, to_letters_fuel, a1_enough.
  replace (Z.to_nat (c + 1)) with (S (S (Z.to_nat (c - 1)))) by lia.
  cbn [a1_loop]. destruct (Z.eqb_spec (c + 1) 0) as [| _]; [lia |].
  replace (c + 1 - 1) with c by lia.
  assert (Hq : 1 <= c / 26 <= 26).
  { split; [apply Z.div_le_lower_bound; lia |].
    assert (c / 26 < 27) by (apply Z.div_lt_upper_bound; lia). lia. }
  destruct (Z.eqb_spec (c / 26) 0) as [| _]; [lia |].
  rewrite (Z.mod_small (c / 26 - 1)), (Z.div_small (c / 26 - 1)) by lia.
  apply a1_loop_zero.
Qed.

(** X4.  Columns 0 to 25 are written with one letter, the letter number
    [c]; columns 26 to 701 with two, the letters number [c / 26 - 1] and
    [c mod 26]; every later column with three or more. *)
Theorem to_letters_length (c : Z) (s : string)
    (Hc : 0 <= c) (Hs : to_letters c = Some s) :
  (c <= 25 -> s = String (Py.chr (65 + c)) "") /\
  (26 <= c <= 701 ->
   s = String (Py.chr (65 + (c / 26 - 1))) (String (Py.chr (65 + c mod 26)) "")) /\
  (702 <= c -> (3 <= String.length s)%nat).
Proof.
  repeat split.
  - intros Hle. rewrite to_letters_single in Hs by lia. now injection Hs.
  - intros Hmid. rewrite to_letters_double in Hs by lia. now injection Hs.
  - intros Hbig.
    pose proof (to_letters_decodes c s Hc Hs) as Hdec.
    destruct (to_letters_upper c s Hc Hs) as [_ Hup].
    destruct s as [| x [| y [| z s]]]; simpl; try lia; exfalso.
    + unfold from_letters in Hdec. simpl in Hdec. lia.
    + simpl in Hup. apply andb_true_iff in Hup as [Hx _].
      apply is_upper_ord in Hx. unfold from_letters in Hdec. simpl in Hdec. lia.
    + simpl in Hup. apply andb_true_iff in Hup as [Hx Hup].
      apply andb_true_iff in Hup as [Hy _].
      apply is_upper_ord in Hx. apply is_upper_ord in Hy.
      unfold from_letters in Hdec. simpl in Hdec. lia.
Qed.

Lemma to_letters_length_witness :
  "AB" = String (Py.chr (65 + (27 / 26 - 1))) (String (Py.chr (65 + 27 mod 26)) "").
Proof.
  exact (proj1 (proj2 (to_letters_length 27 "AB" ltac:(lia) eq_refl)) ltac:(lia)).
Defined.

(** ** The chart binder on other tables *)

(** The series asked for a range that starts at A1 and whose second cell
    holds no colon. *)
Lemma chart_series_from_a1 engine (sheet_name kind second : string) (title : option string) :
  all_chars (fun c => negb (Ascii.eqb c ":")) second = true ->
  forall w,
    add_chart_from_table engine sheet_name ("A1" +:+ ":" +:+ second) kind title w
    = (emit engine (AddChart kind) ;;;
       emit engine
         (AddSeries ("=" +:+ sheet_name +:+ "!" +:+ "A1" +:+ ":" +:+ "A"
                         +:+ Py.slice_from 1 second)
                    ("=" +:+ sheet_name +:+ "!" +:+ "B1" +:+ ":" +:+ second)) ;;;
       (match title with
        | Some t => if Py.truthy t then emit engine (SetTitle t) else ret tt
        | None => ret tt
        end) ;;;
       emit engine (InsertChart sheet_name "B2")) w.
Proof.
  intros Hsecond w.
  assert (Hsplit : Py.split ":" ("A1" +:+ ":" +:+ second) = ["A1"; second]).
  { change ("A1" +:+ ":" +:+ second) with (String "A" (String "1" (String ":" second))).
    simpl. now rewrite (split_no_sep _ _ Hsecond). }
  unfold add_chart_from_table. rewrite Hsplit. reflexivity.
Qed.

Lemma row_text_no_colon (n : Z) :
  0 <= n -> all_chars (fun c => negb (Ascii.eqb c ":")) (Py.str_int n) = true.
Proof.
  intros Hn. eapply all_chars_impl; [apply digit_is_not_colon |].
  now apply all_digits_str_int.
Qed.

(** X5.  For a pivot result of a single column the binder raises nothing:
    it asks for a series whose categories run from A1 to the last row of
    column A and whose values run from B1 back to the last row of column A. *)
Theorem chart_ranges_single_column engine (sheet_name kind : string)
    (title : option string) (piv_df : DataFrame)
    (Hcols : length (df_columns piv_df) = 1%nat) :
  let R := Z.of_nat (df_rows piv_df) in
  exists range bottom_left,
    table_range piv_df = Some range /\
    a1 0 R = Some bottom_left /\
    a1 1 0 = Some "B1" /\
    forall w,
      add_chart_from_table engine sheet_name range kind title w
      = (emit engine (AddChart kind) ;;;
         emit engine
           (AddSeries ("=" +:+ sheet_name +:+ "!" +:+ "A1" +:+ ":" +:+ bottom_left)
                      ("=" +:+ sheet_name +:+ "!" +:+ "B1" +:+ ":" +:+ bottom_left)) ;;;
         (match title with
          | Some t => if Py.truthy t then emit engine (SetTitle t) else ret tt
          | None => ret tt
          end) ;;;
         emit engine (InsertChart sheet_name "B2")) w.
Proof.
  intros R. set (row := Py.str_int (R + 1)).
  exists ("A1" +:+ ":" +:+ String "A" row), (String "A" row).
  repeat split.
  - unfold table_range, shape. rewrite Hcols. reflexivity.
  - intros w. apply (chart_series_from_a1 engine sheet_name kind (String "A" row)).
    simpl. apply row_text_no_colon. lia.
Qed.

Lemma chart_ranges_single_column_witness :
  snd (add_chart_from_table Sample.accept_all "S" "A1:A3" "column" None world0) = Ok tt.
Proof.
  destruct (chart_ranges_single_column Sample.accept_all "S" "column" None
              {| df_rows := 2;
                 df_columns := [ {| s_name := "region"; s_dtype := Object;
                                    s_values := [VStr "east"; VStr "west"] |} ] |}
              eq_refl)
    as (range & bl & Hrange & Hbl & _ & Hrun).
  vm_compute in Hrange. injection Hrange as <-.
  rewrite Hrun. vm_compute in Hbl. injection Hbl as <-.
  vm_compute. reflexivity.
Defined.

(** X6.  For a pivot result of 27 to 702 columns the category range is not
    column A alone: it runs from A1 to the last row of column number
    [26 + (C - 1) mod 26], the column written "A" followed by the second
    letter of the last column. *)
Theorem chart_ranges_past_column_z engine (sheet_name kind : string)
    (title : option string) (piv_df : DataFrame)
    (Hcols : 27 <= Z.of_nat (length (df_columns piv_df)) <= 702) :
  let R := Z.of_nat (df_rows piv_df) in
  let C := Z.of_nat (length (df_columns piv_df)) in
  exists range category_end bottom_right,
    table_range piv_df = Some range /\
    a1 (26 + (C - 1) mod 26) R = Some category_end /\
    a1 (C - 1) R = Some bottom_right /\
    forall w,
      add_chart_from_table engine sheet_name range kind title w
      = (emit engine (AddChart kind) ;;;
         emit engine
           (AddSeries ("=" +:+ sheet_name +:+ "!" +:+ "A1" +:+ ":" +:+ category_end)
                      ("=" +:+ sheet_name +:+ "!" +:+ "B1" +:+ ":" +:+ bottom_right)) ;;;
         (match title with
          | Some t => if Py.truthy t then emit engine (SetTitle t) else ret tt
          | None => ret tt
          end) ;;;
         emit engine (InsertChart sheet_name "B2")) w.
Proof.
  intros R C. set (row := Py.str_int (R + 1)).
  pose proof (Z.mod_pos_bound (C - 1) 26 ltac:(lia)) as Hm.
  assert (Hq : 1 <= (C - 1) / 26 <= 26).
  { split; [apply Z.div_le_lower_bound; lia |].
    assert ((C - 1) / 26 < 27) by (apply Z.div_lt_upper_bound; lia). lia. }
  set (l1 := Py.chr (65 + ((C - 1) / 26 - 1))).
  set (l2 := Py.chr (65 + (C - 1) mod 26)).
  assert (Hend : a1 (C - 1) R = Some (String l1 (String l2 row))).
  { unfold a1, a1_fuel. pose proof (to_letters_double (C - 1) ltac:(lia)) as Hl.
    unfold to_letters in Hl. now rewrite Hl. }
  assert (Hcat : a1 (26 + (C - 1) mod 26) R = Some (String "A" (String l2 row))).
  { unfold a1, a1_fuel.
    pose proof (to_letters_double (26 + (C - 1) mod 26) ltac:(lia)) as Hl.
    unfold to_letters in Hl. rewrite Hl.
    replace (26 + (C - 1) mod 26) with ((C - 1) mod 26 + 1 * 26) by lia.
    rewrite Z.div_add, Z.mod_add by lia.
    rewrite Z.mod_mod, (Z.div_small ((C - 1) mod 26)) by lia.
    reflexivity. }
  exists ("A1" +:+ ":" +:+ String l1 (String l2 row)),
         (String "A" (String l2 row)), (String l1 (String l2 row)).
  repeat split.
  - unfold table_range, shape. fold R C. now rewrite Hend.
  - exact Hcat.
  - exact Hend.
  - intros w.
    apply (chart_series_from_a1 engine sheet_name kind (String l1 (String l2 row))).
    simpl. rewrite !andb_true_iff. repeat split.
    + apply letter_is_not_colon. lia.
    + apply letter_is_not_colon. lia.
    + apply row_text_no_colon. lia.
Qed.

Lemma chart_ranges_past_column_z_witness :
  book (fst (add_chart_from_table Sample.accept_all "S" "A1:AA3" "column" None world0))
  = [AddChart "column"; AddSeries "=S!A1:AA3" "=S!B1:AA3"; InsertChart "S" "B2"].
Proof.
  destruct (chart_ranges_past_column_z Sample.accept_all "S" "column" None
              {| df_rows := 2;
                 df_columns := replicate 27 {| s_name := "amount"; s_dtype := Int;
                                               s_values := [VInt 1; VInt 2] |} |}
              ltac:(vm_compute; split; discriminate))
    as (range & ce & br & Hrange & Hce & Hbr & Hrun).
  vm_compute in Hrange. injection Hrange as <-.
  rewrite Hrun.
  vm_compute in Hce. injection Hce as <-.
  vm_compute in Hbr. injection Hbr as <-.
  vm_compute. reflexivity.
Defined.

(** X7.  The three ways the binder fails, each after the chart object was
    created and before any series is bound or the chart inserted: a first
    cell without a digit raises [ValueError]; a range without a colon whose
    first cell has a digit raises [IndexError]; a first cell whose column part
    is not exactly one character raises [TypeError]. *)
Theorem add_chart_from_table_errors engine (sheet_name table_range kind : string)
    (title : option string) (w : World) :
  let parts := Py.split ":" table_range in
  let first := List.hd "" parts in
  (Py.only_digits first = "" ->
   exists msg,
     add_chart_from_table engine sheet_name table_range kind title w
     = (emit engine (AddChart kind) ;;; lift (Raise (ValueError msg))) w) /\
  (Py.only_digits first <> "" -> parts !! 1%nat = None ->
   exists msg,
     add_chart_from_table engine sheet_name table_range kind title w
     = (emit engine (AddChart kind) ;;; lift (Raise (IndexError msg))) w) /\
  (Py.only_digits first <> "" -> is_Some (parts !! 1%nat) ->
   String.length (Py.rstrip_digits first) <> 1%nat ->
   exists msg,
     add_chart_from_table engine sheet_name table_range kind title w
     = (emit engine (AddChart kind) ;;; lift (Raise (TypeError msg))) w) /\
  (all_chars (fun c => negb (Ascii.eqb c ":")) table_range = true ->
   parts !! 1%nat = None).
Proof.
  intros parts first. unfold add_chart_from_table. fold parts. fold first.
  repeat split.
  - intros Hdigits. rewrite Hdigits. eexists. unfold bind, lift.
    destruct (emit engine (AddChart kind) w) as [w1 [[] | e |]]; reflexivity.
  - intros Hdigits Hparts. rewrite Hparts. eexists. unfold bind, lift.
    destruct (emit engine (AddChart kind) w) as [w1 [[] | e |]]; try reflexivity.
    destruct (Py.only_digits first); [contradiction | reflexivity].
  - intros Hdigits [second Hparts] Hletter. rewrite Hparts. eexists. unfold bind, lift.
    destruct (emit engine (AddChart kind) w) as [w1 [[] | e |]]; try reflexivity.
    destruct (Py.only_digits first); [contradiction |].
    destruct (Py.rstrip_digits first) as [| c [| c' rest]]; try reflexivity.
    contradiction Hletter. reflexivity.
  - intros Hcolon. unfold parts. now rewrite (split_no_sep _ _ Hcolon).
Qed.

Lemma add_chart_from_table_errors_witness :
  (exists msg,
     add_chart_from_table Sample.accept_all "S" "A:C3" "column" None world0
     = (emit Sample.accept_all (AddChart "column") ;;; lift (Raise (ValueError msg))) world0) /\
  (exists msg,
     add_chart_from_table Sample.accept_all "S" "A1" "column" None world0
     = (emit Sample.accept_all (AddChart "column") ;;; lift (Raise (IndexError msg))) world0) /\
  (exists msg,
     add_chart_from_table Sample.accept_all "S" "AB1:AD3" "column" None world0
     = (emit Sample.accept_all (AddChart "column") ;;; lift (Raise (TypeError msg))) world0).
Proof.
  split; [| split].
  - apply (add_chart_from_table_errors Sample.accept_all "S" "A:C3" "column" None world0).
    reflexivity.
  - apply (add_chart_from_table_errors Sample.accept_all "S" "A1" "column" None world0).
    + discriminate.
    + reflexivity.
  - apply (add_chart_from_table_errors Sample.accept_all "S" "AB1:AD3" "column" None world0).
    + discriminate.
    + vm_compute. eauto.
    + vm_compute. discriminate.
Defined.

(** ** The calls of the table materializer *)

Lemma for_each_emit_pairs_ok {A B} engine (g : A -> B -> wcall) (l : list (A * B)) w w' :
  for_each (fun '(a, b) => emit engine (g a b)) l w = (w', Ok tt) ->
  book w' = book w ++ map (fun '(a, b) => g a b) l /\
  stderr w' = stderr w /\ stdout w' = stdout w.
Proof.
  revert w. induction l as [| [a b] l IH]; intros w; simpl.
  - intros [= <-]. now rewrite app_nil_r.
  - intros Hrun. apply bind_ok_inv in Hrun as (w1 & [] & Hemit & Hrest).
    apply IH in Hrest as (Hb & He & Ho).
    unfold emit in Hemit. destruct (engine (book w) (g a b)); [discriminate |].
    injection Hemit as <-. simpl in *.
    rewrite Hb, <- app_assoc. auto.
Qed.

Lemma emit_ok_world engine c w w' :
  emit engine c w = (w', Ok tt) ->
  book w' = book w ++ [c] /\ stderr w' = stderr w /\ stdout w' = stdout w.
Proof.
  unfold emit. destruct (engine (book w) c); [discriminate |].
  now intros [= <-].
Qed.

Lemma ret_ok_world (w w' : World) : ret tt w = (w', Ok tt) ->
  book w' = book w ++ [] /\ stderr w' = stderr w /\ stdout w' = stdout w.
Proof. intros [= <-]. now rewrite app_nil_r. Qed.

Lemma for_each_emit_pairs_accept {A B} engine (g : A -> B -> wcall) (l : list (A * B)) w :
  (forall b c, engine b c = None) ->
  exists w', for_each (fun '(a, b) => emit engine (g a b)) l w = (w', Ok tt).
Proof.
  intros Hacc. revert w. induction l as [| [a b] l IH]; intros w; simpl.
  - eexists. reflexivity.
  - unfold bind, emit. rewrite Hacc. apply IH.
Qed.

Lemma bind_run {A B} (m : M A) (k : A -> M B) w w1 a :
  m w = (w1, Ok a) -> bind m k w = k a w1.
Proof. intros H. unfold bind. now rewrite H. Qed.

Lemma emit_accept engine c w :
  (forall b c, engine b c = None) -> exists w', emit engine c w = (w', Ok tt).
Proof. intros Hacc. unfold emit. rewrite Hacc. eauto. Qed.

Lemma write_df_to_sheet_trace engine (df : DataFrame) (sheet_name : string)
    (make_table : bool) (table_style : string) (autofilter freeze_header : bool)
    (w : World) :
  (forall w',
     write_df_to_sheet engine df sheet_name make_table table_style autofilter
       freeze_header w = (w', Ok tt) ->
     book w' = book w ++ sheet_calls df sheet_name make_table table_style autofilter
                           freeze_header /\
     stderr w' = stderr w /\ stdout w' = stdout w) /\
  ((forall b c, engine b c = None) ->
   exists w',
     write_df_to_sheet engine df sheet_name make_table table_style autofilter
       freeze_header w = (w', Ok tt)).
Proof.
  split.
  - intros w' Hrun. unfold write_df_to_sheet in Hrun.
    apply bind_ok_inv in Hrun as (w1 & [] & H1 & Hrun).
    apply bind_ok_inv in Hrun as (w2 & [] & H2 & Hrun).
    apply bind_ok_inv in Hrun as (w3 & [] & H3 & Hrun).
    apply bind_ok_inv in Hrun as (w4 & [] & H4 & H5).
    apply emit_ok_world in H1 as (B1 & E1 & O1).
    apply (for_each_emit_pairs_ok engine
             (fun col_idx col =>
                SetColumn sheet_name col_idx col_idx (best_width col default_max_width)
                  (column_format col))) in H3 as (B3 & E3 & O3).
    assert (B2 : book w2 = book w1 ++ header_calls sheet_name df ++
                   (if make_table
                    then [AddTable sheet_name 0 0 (Z.of_nat (df_rows df))
                            (Z.of_nat (length (df_columns df)) - 1)
                            (table_name sheet_name) table_style
                            (map s_name (df_columns df)) true]
                    else [])
                 /\ stderr w2 = stderr w1 /\ stdout w2 = stdout w1).
    { destruct make_table.
      - apply bind_ok_inv in H2 as (wh & [] & Hh & Ht).
        apply (for_each_emit_pairs_ok engine
                 (fun col_idx col => WriteHeader sheet_name 0 col_idx (s_name col)))
          in Hh as (Bh & Eh & Oh).
        apply emit_ok_world in Ht as (Bt & Et & Ot).
        rewrite Bt, Bh, <- app_assoc. split; [reflexivity | split; congruence].
      - apply (for_each_emit_pairs_ok engine
                 (fun col_idx col => WriteHeader sheet_name 0 col_idx (s_name col)))
          in H2 as (Bh & Eh & Oh).
        rewrite app_nil_r. auto. }
    destruct B2 as (B2 & E2 & O2).
    assert (B4 : book w4 = book w3 ++
                   (if autofilter && negb make_table
                    then [Autofilter sheet_name 0 0 (Z.of_nat (df_rows df))
                            (Z.of_nat (length (df_columns df)) - 1)]
                    else [])
                 /\ stderr w4 = stderr w3 /\ stdout w4 = stdout w3).
    { destruct (autofilter && negb make_table);
        [now apply emit_ok_world in H4 | now apply ret_ok_world in H4]. }
    destruct B4 as (B4 & E4 & O4).
    assert (B5 : book w' = book w4 ++
                   (if freeze_header then [FreezePanes sheet_name 1 0] else [])
                 /\ stderr w' = stderr w4 /\ stdout w' = stdout w4).
    { destruct freeze_header.
      - apply emit_ok_world in H5. now destruct make_table.
      - now apply ret_ok_world in H5. }
    destruct B5 as (B5 & E5 & O5).
    split; [| split; congruence].
    rewrite B5, B4, B3, B2, B1. unfold sheet_calls, column_calls.
    rewrite <- !app_assoc. reflexivity.
  - intros Hacc. unfold write_df_to_sheet.
    destruct (emit_accept engine (ToExcel sheet_name df (if make_table then 1 else 0)) w Hacc)
      as [w1 H1].
    rewrite (bind_run _ _ _ _ _ H1).
    assert (H2 : exists w2,
               (if make_table
                then
                  for_each (fun '(col_idx, col) =>
                              emit engine (WriteHeader sheet_name 0 col_idx (s_name col)))
                           (enumerate (df_columns df)) ;;;
                  emit engine
                    (AddTable sheet_name 0 0 (Z.of_nat (df_rows df))
                       (Z.of_nat (length (df_columns df)) - 1)
                       ("tbl_" +:+ Py.replace_char " " "_" (Py.slice_to 20 sheet_name))
                       table_style (map s_name (df_columns df)) true)
                else
                  for_each (fun '(col_idx, col) =>
                              emit engine (WriteHeader sheet_name 0 col_idx (s_name col)))
                           (enumerate (df_columns df))) w1 = (w2, Ok tt)).
    { destruct make_table.
      - destruct (for_each_emit_pairs_accept engine
                    (fun col_idx col => WriteHeader sheet_name 0 col_idx (s_name col))
                    (enumerate (df_columns df)) w1 Hacc) as [wh Hh].
        rewrite (bind_run _ _ _ _ _ Hh). apply emit_accept, Hacc.
      - apply (for_each_emit_pairs_accept engine
                 (fun col_idx col => WriteHeader sheet_name 0 col_idx (s_name col))),
          Hacc. }
    destruct H2 as [w2 H2]. rewrite (bind_run _ _ _ _ _ H2).
    destruct (for_each_emit_pairs_accept engine
                (fun col_idx col =>
                   SetColumn sheet_name col_idx col_idx (best_width col default_max_width)
                     (column_format col))
                (enumerate (df_columns df)) w2 Hacc) as [w3 H3].
    unfold column_format in H3. rewrite (bind_run _ _ _ _ _ H3).
    assert (H4 : exists w4,
               (if autofilter && negb make_table
                then emit engine
                       (Autofilter sheet_name 0 0 (Z.of_nat (df_rows df))
                          (Z.of_nat (length (df_columns df)) - 1))
                else ret tt) w3 = (w4, Ok tt)).
    { destruct (autofilter && negb make_table);
        [apply emit_accept, Hacc | eexists; reflexivity]. }
    destruct H4 as [w4 H4]. rewrite (bind_run _ _ _ _ _ H4).
    destruct freeze_header; [apply emit_accept, Hacc | eexists; reflexivity].
Qed.



Lemma elem_of_enumerate_from {A} (l : list A) (start i : Z) (x : A) :
  (i, x) ∈ enumerate_from start l ->
  start <= i < start + Z.of_nat (length l) /\ l !! Z.to_nat (i - start) = Some x.
Proof.
  revert start. induction l as [| y l IH]; intros start Hin; simpl in Hin.
  - inversion Hin.
  - apply elem_of_cons in Hin as [[= -> ->] | Hin].
    + rewrite Z.sub_diag. simpl. split; [lia | reflexivity].
    + apply IH in Hin as [Hi Hx]. simpl length. split; [lia |].
      replace (Z.to_nat (i - start)) with (S (Z.to_nat (i - (start + 1)))) by lia.
      exact Hx.
Qed.

Lemma elem_of_sheet_calls c df sheet_name make_table style autofilter freeze :
  c ∈ sheet_calls df sheet_name make_table style autofilter freeze ->
  c = ToExcel sheet_name df (if make_table then 1 else 0) \/
  (exists i col, (i, col) ∈ enumerate (df_columns df) /\
                 c = WriteHeader sheet_name 0 i (s_name col)) \/
  (make_table = true /\
   c = AddTable sheet_name 0 0 (Z.of_nat (df_rows df))
         (Z.of_nat (length (df_columns df)) - 1)
         (table_name sheet_name) style (map s_name (df_columns df)) true) \/
  (exists i col, (i, col) ∈ enumerate (df_columns df) /\
                 c = SetColumn sheet_name i i (best_width col default_max_width)
                       (column_format col)) \/
  (autofilter = true /\ make_table = false /\
   c = Autofilter sheet_name 0 0 (Z.of_nat (df_rows df))
         (Z.of_nat (length (df_columns df)) - 1)) \/
  (freeze = true /\ c = FreezePanes sheet_name 1 0).
Proof.
  unfold sheet_calls, header_calls, column_calls. intros Hin.
  apply elem_of_cons in Hin as [-> | Hin]; [now left |].
  apply elem_of_app in Hin as [Hin | Hin].
  { right. left. apply list_elem_of_fmap in Hin as ([i col] & -> & Hin). eauto. }
  apply elem_of_app in Hin as [Hin | Hin].
  { right. right. left. destruct make_table; [| inversion Hin].
    apply list_elem_of_singleton in Hin. auto. }
  apply elem_of_app in Hin as [Hin | Hin].
  { do 3 right. left. apply list_elem_of_fmap in Hin as ([i col] & -> & Hin). eauto. }
  apply elem_of_app in Hin as [Hin | Hin].
  { do 4 right. left.
    destruct autofilter, make_table; simpl in Hin;
      [inversion Hin | | inversion Hin | inversion Hin].
    apply list_elem_of_singleton in Hin. auto. }
  do 5 right. destruct freeze; [| inversion Hin].
  apply list_elem_of_singleton in Hin. auto.
Qed.

Lemma column_format_eq (col : Series) : column_format col = auto_number_format col.
Proof.
  unfold column_format, auto_number_format.
  repeat (case_match; simplify_eq; try reflexivity).
Qed.

(** X9.  In a call of [write_df_to_sheet] that returns, a table and a
    separate autofilter are never both requested; every column-format
    request is for one column of the frame, with the width and the number
    format inferred for that column and a width of at most 60; and the
    frozen pane, when requested, is always below row 0. *)
Theorem write_df_to_sheet_requests engine (df : DataFrame) (sheet_name : string)
    (make_table : bool) (table_style : string) (autofilter freeze_header : bool)
    (w w' : World)
    (Hrun : write_df_to_sheet engine df sheet_name make_table table_style autofilter
              freeze_header w = (w', Ok tt)) :
  exists added,
    book w' = book w ++ added /\
    ~ (exists t f, t ∈ added /\ f ∈ added /\
                   is_table_call t = true /\ is_autofilter_call f = true) /\
    (forall sheet c0 c1 width fmt,
       SetColumn sheet c0 c1 width fmt ∈ added ->
       sheet = sheet_name /\ c0 = c1 /\ width <= 60 /\
       exists col, df_columns df !! Z.to_nat c0 = Some col /\
                   0 <= c0 < Z.of_nat (length (df_columns df)) /\
                   width = best_width col 60 /\ fmt = auto_number_format col) /\
    (forall sheet r c, FreezePanes sheet r c ∈ added -> r = 1 /\ c = 0).
Proof.
  apply write_df_to_sheet_trace in Hrun as (Hbook & _ & _).
  eexists. split; [exact Hbook |]. repeat split.
  - intros (t & f & Ht & Hf & Htable & Hfilter).
    apply elem_of_sheet_calls in Ht
      as [-> | [(? & ? & _ & ->) | [(Hmt & _) | [(? & ? & _ & ->) | [(_ & _ & ->) | (_ & ->)]]]]];
      try discriminate Htable.
    apply elem_of_sheet_calls in Hf
      as [-> | [(? & ? & _ & ->) | [(_ & ->) | [(? & ? & _ & ->) | [(_ & Hmf & _) | (_ & ->)]]]]];
      try discriminate Hfilter.
    congruence.
  - apply elem_of_sheet_calls in H
      as [H | [(? & ? & _ & H) | [(_ & H) | [(i & col & _ & H) | [(_ & _ & H) | (_ & H)]]]]];
      try discriminate H.
    now injection H.
  - apply elem_of_sheet_calls in H
      as [H | [(? & ? & _ & H) | [(_ & H) | [(i & col & _ & H) | [(_ & _ & H) | (_ & H)]]]]];
      try discriminate H.
    injection H. congruence.
  - apply elem_of_sheet_calls in H
      as [H | [(? & ? & _ & H) | [(_ & H) | [(i & col & _ & H) | [(_ & _ & H) | (_ & H)]]]]];
      try discriminate H.
    injection H as _ _ _ -> _. unfold best_width, default_max_width. lia.
  - apply elem_of_sheet_calls in H
      as [H | [(? & ? & _ & H) | [(_ & H) | [(i & col & Hin & H) | [(_ & _ & H) | (_ & H)]]]]];
      try discriminate H.
    injection H as -> -> -> -> ->.
    apply elem_of_enumerate_from in Hin as [Hi Hcol].
    rewrite Z.sub_0_r in Hcol.
    exists col. repeat split; try assumption; try lia.
    apply column_format_eq.
  - apply elem_of_sheet_calls in H
      as [H | [(? & ? & _ & H) | [(_ & H) | [(? & ? & _ & H) | [(_ & _ & H) | (_ & H)]]]]];
      try discriminate H.
    now injection H.
  - apply elem_of_sheet_calls in H
      as [H | [(? & ? & _ & H) | [(_ & H) | [(? & ? & _ & H) | [(_ & _ & H) | (_ & H)]]]]];
      try discriminate H.
    now injection H.
Qed.

Lemma write_df_to_sheet_requests_witness :
  exists w' added,
    write_df_to_sheet Sample.accept_all Sample.sales_q1 "Q1 sales" false
      "Table Style Light 9" true true world0 = (w', Ok tt) /\
    book w' = book world0 ++ added /\
    ~ (exists t f, t ∈ added /\ f ∈ added /\
                   is_table_call t = true /\ is_autofilter_call f = true).
Proof.
  destruct (proj2 (write_df_to_sheet_trace Sample.accept_all Sample.sales_q1 "Q1 sales"
                     false "Table Style Light 9" true true world0) ltac:(reflexivity))
    as [w' Hrun].
  destruct (write_df_to_sheet_requests _ _ _ _ _ _ _ _ _ Hrun) as (added & Hbook & Hnever & _).
  exists w', added. auto.
Defined.

(** ** The name of the table *)

Lemma replace_char_all (a b : ascii) (s : string) :
  a <> b -> all_chars (fun c => negb (Ascii.eqb c a)) (Py.replace_char a b s) = true.
Proof.
  intros Hab. induction s as [| c s IH]; [reflexivity |].
  simpl. rewrite IH, andb_true_r.
  destruct (Ascii.eqb_spec c a) as [-> | Hca]; apply negb_true_iff, Ascii.eqb_neq; congruence.
Qed.

Lemma replace_char_length (a b : ascii) (s : string) :
  String.length (Py.replace_char a b s) = String.length s.
Proof. induction s as [| c s IH]; [reflexivity | simpl; now rewrite IH]. Qed.

Lemma slice_to_slice_to (n m : nat) (s : string) :
  (n <= m)%nat -> Py.slice_to n (Py.slice_to m s) = Py.slice_to n s.
Proof.
  revert m s. induction n as [| n IH]; intros m s Hnm; [reflexivity |].
  destruct m as [| m]; [lia |].
  destruct s as [| c s]; [reflexivity |]. simpl. rewrite IH by lia. reflexivity.
Qed.

Lemma slice_to_append (a s : string) (n : nat) :
  Py.slice_to (String.length a + n) (a +:+ s) = a +:+ Py.slice_to n s.
Proof.
  induction a as [| c a IH]; [reflexivity |].
  rewrite !append_cons. simpl. now rewrite IH.
Qed.

(** X10.  The table of a sheet is named "tbl_" followed by the first 20
    characters of the sheet name with every space turned into an underscore:
    the name holds no space, has at most 24 characters, and is the same for
    two sheets whose names agree on their first 20 characters, so for two
    pivots whose names agree on their first 10.  A call that returns with
    [make_table] set has requested the table under that name, over rows 0 to
    the number of data rows and columns 0 to the last. *)
Theorem table_name_rules engine (df : DataFrame) (sheet_name other : string)
    (table_style : string) (autofilter freeze_header : bool) (w w' : World)
    (piv_name piv_other : string)
    (Hrun : write_df_to_sheet engine df sheet_name true table_style autofilter
              freeze_header w = (w', Ok tt)) :
  AddTable sheet_name 0 0 (Z.of_nat (df_rows df)) (Z.of_nat (length (df_columns df)) - 1)
    (table_name sheet_name) table_style (map s_name (df_columns df)) true ∈ book w' /\
  all_chars (fun c => negb (Ascii.eqb c " ")) (table_name sheet_name) = true /\
  String.length (table_name sheet_name) = (4 + Nat.min 20 (String.length sheet_name))%nat /\
  (Py.slice_to 20 sheet_name = Py.slice_to 20 other ->
   table_name sheet_name = table_name other) /\
  (Py.slice_to 10 piv_name = Py.slice_to 10 piv_other ->
   table_name (pivot_sheet_name piv_name) = table_name (pivot_sheet_name piv_other)).
Proof.
  repeat split.
  - apply write_df_to_sheet_trace in Hrun as (Hbook & _ & _). rewrite Hbook.
    apply elem_of_app. right. unfold sheet_calls.
    apply elem_of_cons. right. apply elem_of_app. right. apply elem_of_app. left.
    apply list_elem_of_singleton. reflexivity.
  - unfold table_name. change ("tbl_" +:+ ?x) with (String "t" (String "b" (String "l" (String "_" x)))).
    simpl. apply replace_char_all. discriminate.
  - unfold table_name. rewrite length_append, replace_char_length, slice_to_length.
    reflexivity.
  - intros Heq. unfold table_name. now rewrite Heq.
  - intros Heq. unfold table_name, pivot_sheet_name.
    rewrite !slice_to_slice_to by lia.
    rewrite !(slice_to_append "Summary - " _ 10). now rewrite Heq.
Qed.

Lemma table_name_rules_witness :
  table_name (pivot_sheet_name "by_region_2023") = table_name (pivot_sheet_name "by_region_2024").
Proof.
  destruct (proj2 (write_df_to_sheet_trace Sample.accept_all Sample.sales_q1 "Q1 sales"
                     true "Table Style Light 9" true true world0) ltac:(reflexivity))
    as [w' Hrun].
  exact (proj2 (proj2 (proj2 (proj2
           (table_name_rules _ _ _ "Q1 sales" _ _ _ _ _ "by_region_2023" "by_region_2024" Hrun))))
           eq_refl).
Defined.

(** ** Flattening the pivot columns *)

(** X11.  Flattening always leaves a single-level column index with as many
    columns as before and touches nothing else; a two-level index becomes
    the labels of its tuples; a single-level index is left as it is, so
    flattening twice is flattening once. *)
Theorem flatten_columns_shape (pivot : Pivot) :
  (exists labels,
     pv_columns (flatten_columns pivot) = Index labels /\
     length labels = column_count (pv_columns pivot)) /\
  (forall tuples,
     pv_columns pivot = MultiIndex tuples ->
     pv_columns (flatten_columns pivot) = Index (map flat_label tuples)) /\
  (forall labels, pv_columns pivot = Index labels -> flatten_columns pivot = pivot) /\
  pv_index (flatten_columns pivot) = pv_index pivot /\
  pv_data (flatten_columns pivot) = pv_data pivot /\
  flatten_columns (flatten_columns pivot) = flatten_columns pivot.
Proof.
  unfold flatten_columns.
  destruct pivot as [[labels | tuples] index data]; simpl.
  - split; [eauto |]. split; [discriminate |]. auto.
  - split; [eexists; split; [reflexivity | now rewrite length_map] |].
    split; [now intros t [= <-] |]. split; [discriminate |]. auto.
Qed.

Lemma join_two (sep a b : string) : Py.join sep [a; b] = a +:+ sep +:+ b.
Proof. reflexivity. Qed.

Lemma append_not_empty_l (a b : string) : a <> "" -> a +:+ b <> "".
Proof. destruct a; [contradiction | discriminate]. Qed.

(** X12.  The name of a flattened column joins the parts of its tuple with
    single spaces and leaves empty parts out, wherever they stand.  The
    names need not tell tuples apart: a part that itself contains a space
    gives the name of a longer tuple. *)
Theorem flat_label_rules (before after : list string) (a b c : string)
    (Ha : a <> "") (Hb : b <> "") (Hc : c <> "") :
  flat_label (before ++ "" :: after) = flat_label (before ++ after) /\
  flat_label [a; b] = a +:+ " " +:+ b /\
  flat_label [""; a] = a /\
  flat_label [a; ""] = a /\
  flat_label [a +:+ " " +:+ b; c] = flat_label [a; b +:+ " " +:+ c] /\
  flat_label [a +:+ " " +:+ b; c] = flat_label [a; b; c].
Proof.
  assert (Hab : a +:+ " " +:+ b <> "") by now apply append_not_empty_l.
  assert (Hbc : b +:+ " " +:+ c <> "") by now apply append_not_empty_l.
  unfold flat_label. split; [| split; [| split; [| split; [| split]]]].
  - rewrite !filter_app. rewrite filter_cons_False by tauto. reflexivity.
  - now rewrite !filter_cons_True, filter_nil by assumption.
  - rewrite filter_cons_False by tauto. now rewrite filter_cons_True, filter_nil by assumption.
  - rewrite filter_cons_True by assumption. now rewrite filter_cons_False, filter_nil by tauto.
  - rewrite !filter_cons_True, filter_nil by assumption.
    rewrite !join_two. now rewrite !append_assoc.
  - rewrite !filter_cons_True, filter_nil by assumption.
    rewrite join_two. simpl. now rewrite !append_assoc.
Qed.

Lemma flat_label_rules_witness :
  flat_label ["amount"; ""; "north"] = flat_label ["amount"; "north"] /\
  flat_label ["amount north"; "q1"] = flat_label ["amount"; "north q1"].
Proof.
  pose proof (flat_label_rules ["amount"] ["north"] "amount" "north" "q1"
                ltac:(discriminate) ltac:(discriminate) ltac:(discriminate)) as H.
  split; [exact (proj1 H) | exact (proj1 (proj2 (proj2 (proj2 (proj2 H)))))].
Defined.

(** ** The dictionary of pivots *)

Lemma dict_get_set_eq {V} (k : string) (v : V) d : dict_get k (dict_set k v d) = Some v.
Proof.
  induction d as [| [k' v'] d IH]; simpl.
  - now rewrite String.eqb_refl.
  - destruct (String.eqb_spec k' k) as [-> | Hne]; simpl.
    + now rewrite String.eqb_refl.
    + destruct (String.eqb_spec k' k); [contradiction | exact IH].
Qed.

Lemma dict_get_set_ne {V} (k k' : string) (v : V) d :
  k <> k' -> dict_get k' (dict_set k v d) = dict_get k' d.
Proof.
  intros Hne. induction d as [| [k0 v0] d IH]; simpl.
  - destruct (String.eqb_spec k k'); [contradiction | reflexivity].
  - destruct (String.eqb_spec k0 k) as [-> | Hk0]; simpl.
    + destruct (String.eqb_spec k k'); [contradiction | reflexivity].
    + destruct (String.eqb_spec k0 k'); [reflexivity | exact IH].
Qed.

Lemma dict_set_keys_elem {V} (k x : string) (v : V) d :
  x ∈ map fst (dict_set k v d) <-> x = k \/ x ∈ map fst d.
Proof.
  induction d as [| [k' v'] d IH]; simpl.
  - rewrite list_elem_of_singleton. split; [auto |]. intros [-> | H]; [reflexivity | inversion H].
  - destruct (String.eqb_spec k' k) as [-> | Hne]; simpl.
    + rewrite !elem_of_cons. tauto.
    + rewrite !elem_of_cons, IH. tauto.
Qed.

Lemma dict_set_keys_nodup {V} (k : string) (v : V) d :
  NoDup (map fst d) -> NoDup (map fst (dict_set k v d)).
Proof.
  induction d as [| [k' v'] d IH]; simpl; intros Hnd.
  - apply NoDup_singleton.
  - apply NoDup_cons in Hnd as [Hnotin Hnd].
    destruct (String.eqb_spec k' k) as [-> | Hne]; simpl.
    + apply NoDup_cons. auto.
    + apply NoDup_cons. split; [| auto].
      rewrite dict_set_keys_elem. intros [-> | Hin]; [congruence | contradiction].
Qed.

Lemma dict_set_length {V} (k : string) (v : V) d :
  (length (dict_set k v d) <= S (length d))%nat.
Proof.
  induction d as [| [k' v'] d IH]; simpl; [lia |].
  destruct (String.eqb k' k); simpl; lia.
Qed.

Section PivotDictionary.

Context (pivot_table : DataFrame -> PivotArgs -> res Pivot)
        (reset_index : Pivot -> res DataFrame).

Local Abbreviation build_from := (build_pivots_from pivot_table reset_index).

(** One round of the loop on a specification whose source is loaded. *)
Lemma build_from_resolved_inv p rest frames pivots w w' out :
  build_from (p :: rest) frames pivots w = (w', Ok out) ->
  resolved frames p = true ->
  exists k df pivot flat,
    p_source p = Some k /\ frames !! k = Some df /\
    pivot_table df (pivot_args p) = Ok pivot /\
    reset_index (flatten_columns pivot) = Ok flat /\
    build_from rest frames (dict_set (pivot_key p) flat pivots) w = (w', Ok out).
Proof.
  unfold resolved. simpl. intros Hrun Hres.
  destruct (p_source p) as [k |] eqn:Hsrc; [| discriminate]. simpl in *.
  destruct (frames !! k) as [df |] eqn:Hdf; [| discriminate].
  apply bind_ok_inv in Hrun as (w1 & pivot & Hpt & Hrun).
  apply lift_ok_inv in Hpt as [Hpt ->].
  apply bind_ok_inv in Hrun as (w2 & flat & Hri & Hrun).
  apply lift_ok_inv in Hri as [Hri ->].
  exists k, df, pivot, flat. repeat split; try assumption.
  unfold pivot_key. now rewrite Hsrc.
Qed.

Lemma build_from_unresolved_inv p rest frames pivots w :
  resolved frames p = false ->
  build_from (p :: rest) frames pivots w
  = build_from rest frames pivots (warned (source_warning p) w).
Proof.
  unfold resolved. simpl. intros Hres.
  destruct (p_source p ≫= _); [discriminate | reflexivity].
Qed.

Lemma build_from_keys specs frames pivots w w' out :
  build_from specs frames pivots w = (w', Ok out) ->
  (NoDup (map fst pivots) -> NoDup (map fst out)) /\
  (forall k, k ∈ map fst out <->
             k ∈ map fst pivots \/
             exists p, p ∈ specs /\ resolved frames p = true /\ pivot_key p = k) /\
  (length out <= length pivots + length specs)%nat.
Proof.
  revert pivots w. induction specs as [| p rest IH]; intros pivots w Hrun.
  - injection Hrun as _ <-. split; [auto |]. split; [| simpl; lia].
    intros k. split; [auto |]. intros [H | (p & Hp & _)]; [exact H | inversion Hp].
  - destruct (resolved frames p) eqn:Hres.
    + destruct (build_from_resolved_inv _ _ _ _ _ _ _ Hrun Hres)
        as (k0 & df & pivot & flat & _ & _ & _ & _ & Hrest).
      apply IH in Hrest as (Hnd & Hkeys & Hlen).
      split; [intros H; now apply Hnd, dict_set_keys_nodup |].
      split.
      * intros k. rewrite Hkeys, dict_set_keys_elem. split.
        -- intros [[-> | Hin] | (q & Hq & Hqr & Hqk)].
           ++ right. exists p. split; [left | auto].
           ++ now left.
           ++ right. exists q. split; [now right | auto].
        -- intros [Hin | (q & Hq & Hqr & Hqk)]; [auto |].
           apply elem_of_cons in Hq as [-> | Hq]; [auto |].
           right. eauto.
      * pose proof (dict_set_length (pivot_key p) flat pivots). simpl. lia.
    + rewrite build_from_unresolved_inv in Hrun by exact Hres.
      apply IH in Hrun as (Hnd & Hkeys & Hlen).
      split; [exact Hnd |]. split; [| simpl; lia].
      intros k. rewrite Hkeys. split.
      * intros [Hin | (q & Hq & Hqr & Hqk)]; [auto |].
        right. exists q. split; [now right | auto].
      * intros [Hin | (q & Hq & Hqr & Hqk)]; [auto |].
        apply elem_of_cons in Hq as [-> | Hq]; [congruence |].
        right. eauto.
Qed.

(** X13.  The pivots [build_pivots] returns carry pairwise different names,
    and the names are exactly the keys of the specifications whose source is
    loaded: the name of the specification, or "pivot_" followed by the source
    when it has none.  There are never more pivots than specifications. *)
Theorem build_pivots_names (specs : list PivotSpec) (frames : gmap string DataFrame)
    (w w' : World) (pivots : list (string * DataFrame))
    (Hrun : build_pivots pivot_table reset_index specs frames w = (w', Ok pivots)) :
  NoDup (map fst pivots) /\
  (forall k, k ∈ map fst pivots <->
             exists p, p ∈ specs /\ resolved frames p = true /\ pivot_key p = k) /\
  (length pivots <= length specs)%nat /\
  (forall p src, p_name p = None -> p_source p = Some src ->
                 pivot_key p = "pivot_" +:+ src).
Proof.
  apply build_from_keys in Hrun as (Hnd & Hkeys & Hlen).
  split; [apply Hnd, NoDup_nil_2 |]. split; [| split; [exact Hlen |]].
  - intros k. rewrite Hkeys. split; [| auto].
    intros [Hin | H]; [inversion Hin | exact H].
  - intros p src Hname Hsrc. unfold pivot_key. now rewrite Hname, Hsrc.
Qed.

End PivotDictionary.

Lemma build_pivots_names_witness :
  exists w' pivots,
    build_pivots Sample.pivot_table Sample.reset_index
      [Sample.first_pivot; Sample.lost_pivot; Sample.good_pivot] Sample.frames world0
    = (w', Ok pivots) /\
    NoDup (map fst pivots) /\ (length pivots <= 3)%nat.
Proof.
  assert (Hrun : exists w' pivots,
             build_pivots Sample.pivot_table Sample.reset_index
               [Sample.first_pivot; Sample.lost_pivot; Sample.good_pivot]
               Sample.frames world0 = (w', Ok pivots)).
  { eexists _, _. vm_compute. reflexivity. }
  destruct Hrun as (w' & pivots & Hrun).
  exists w', pivots. split; [exact Hrun |].
  pose proof (build_pivots_names _ _ _ _ _ _ _ Hrun) as (Hnd & _ & Hlen & _).
  auto.
Defined.

Section PivotDiagnostics.

Context (pivot_table : DataFrame -> PivotArgs -> res Pivot)
        (reset_index : Pivot -> res DataFrame).

Local Abbreviation build_from := (build_pivots_from pivot_table reset_index).

Lemma build_from_warnings specs frames pivots w w' out :
  build_from specs frames pivots w = (w', Ok out) ->
  stderr w' = stderr w ++ map source_warning
                            (filter (fun p => resolved frames p = false) specs) /\
  stdout w' = stdout w /\ book w' = book w.
Proof.
  revert pivots w. induction specs as [| p rest IH]; intros pivots w Hrun.
  - injection Hrun as <- _. now rewrite app_nil_r.
  - destruct (resolved frames p) eqn:Hres.
    + destruct (build_from_resolved_inv _ _ _ _ _ _ _ _ _ Hrun Hres)
        as (k0 & df & pivot & flat & _ & _ & _ & _ & Hrest).
      apply IH in Hrest. rewrite filter_cons_False by congruence. exact Hrest.
    + rewrite build_from_unresolved_inv in Hrun by exact Hres.
      apply IH in Hrun as (He & Ho & Hb). simpl in *.
      rewrite filter_cons_True by exact Hres. simpl.
      rewrite He, <- app_assoc. auto.
Qed.

Lemma build_from_all_unresolved specs frames pivots w :
  (forall p, p ∈ specs -> resolved frames p = false) ->
  build_from specs frames pivots w
  = ({| book := book w;
        stderr := stderr w ++ map source_warning specs;
        stdout := stdout w |}, Ok pivots).
Proof.
  revert w. induction specs as [| p rest IH]; intros w Hall.
  - simpl. rewrite app_nil_r. now destruct w.
  - rewrite build_from_unresolved_inv by (apply Hall; left).
    rewrite IH by (intros q Hq; apply Hall; now right).
    simpl. now rewrite <- app_assoc.
Qed.

(** X14.  A call of [build_pivots] that returns has written to the
    diagnostic stream exactly one warning for each specification whose source
    is not loaded, in the order of the specifications, and has touched
    neither the workbook nor the standard output.  When no source is loaded
    it always returns, with no pivot, without computing anything. *)
Theorem build_pivots_diagnostics (specs : list PivotSpec)
    (frames : gmap string DataFrame) (w : World) :
  (forall w' pivots,
     build_pivots pivot_table reset_index specs frames w = (w', Ok pivots) ->
     stderr w' = stderr w ++ map source_warning
                               (filter (fun p => resolved frames p = false) specs) /\
     stdout w' = stdout w /\ book w' = book w) /\
  ((forall p, p ∈ specs -> resolved frames p = false) ->
   build_pivots pivot_table reset_index specs frames w
   = ({| book := book w;
         stderr := stderr w ++ map source_warning specs;
         stdout := stdout w |}, Ok [])).
Proof.
  split.
  - intros w' pivots. apply build_from_warnings.
  - apply build_from_all_unresolved.
Qed.

Lemma build_from_other_key specs frames pivots w w' out (k : string) :
  (forall q, q ∈ specs -> resolved frames q = true -> pivot_key q <> k) ->
  build_from specs frames pivots w = (w', Ok out) ->
  dict_get k out = dict_get k pivots.
Proof.
  revert pivots w. induction specs as [| p rest IH]; intros pivots w Hother Hrun.
  - now injection Hrun as _ <-.
  - destruct (resolved frames p) eqn:Hres.
    + destruct (build_from_resolved_inv _ _ _ _ _ _ _ _ _ Hrun Hres)
        as (k0 & df & pivot & flat & _ & _ & _ & _ & Hrest).
      apply IH in Hrest; [| intros q Hq; apply Hother; now right].
      rewrite Hrest. apply dict_get_set_ne. apply Hother; [left | exact Hres].
    + rewrite build_from_unresolved_inv in Hrun by exact Hres.
      apply IH in Hrun; [exact Hrun | intros q Hq; apply Hother; now right].
Qed.

(** X15.  When several specifications share a name, the pivot returned
    under that name is the one computed for the last of them whose source is
    loaded: the flattened, index-reset result of [pd.pivot_table] on its
    source with its arguments. *)
Theorem build_pivots_last_name_wins (before after : list PivotSpec) (p : PivotSpec)
    (frames : gmap string DataFrame) (w w' : World) (pivots : list (string * DataFrame))
    (Hres : resolved frames p = true)
    (Hafter : forall q, q ∈ after -> resolved frames q = true ->
                        pivot_key q <> pivot_key p)
    (Hrun : build_pivots pivot_table reset_index (before ++ p :: after) frames w
            = (w', Ok pivots)) :
  exists k df pivot flat,
    p_source p = Some k /\ frames !! k = Some df /\
    pivot_table df (pivot_args p) = Ok pivot /\
    reset_index (flatten_columns pivot) = Ok flat /\
    dict_get (pivot_key p) pivots = Some flat.
Proof.
  unfold build_pivots in Hrun. rewrite build_pivots_from_app in Hrun.
  apply bind_ok_inv in Hrun as (w1 & pivots1 & _ & Hrun).
  destruct (build_from_resolved_inv _ _ _ _ _ _ _ _ _ Hrun Hres)
    as (k & df & pivot & flat & Hsrc & Hdf & Hpt & Hri & Hrest).
  exists k, df, pivot, flat. repeat split; try assumption.
  rewrite (build_from_other_key _ _ _ _ _ _ _ Hafter Hrest).
  apply dict_get_set_eq.
Qed.

End PivotDiagnostics.

Lemma build_pivots_diagnostics_witness :
  build_pivots Sample.pivot_table Sample.reset_index [Sample.lost_pivot] Sample.frames world0
  = ({| book := []; stderr := ["[warn] pivot source not found: sales_2019"]; stdout := [] |},
     Ok []).
Proof.
  refine (proj2 (build_pivots_diagnostics Sample.pivot_table Sample.reset_index
                   [Sample.lost_pivot] Sample.frames world0) _).
  intros p Hp. apply list_elem_of_singleton in Hp as ->. vm_compute. reflexivity.
Defined.

Lemma build_pivots_last_name_wins_witness :
  exists w' pivots flat,
    build_pivots Sample.pivot_table Sample.reset_index
      ([Sample.by_region "same" "sales_q1" "amount"]
       ++ Sample.by_region "same" "sales_q1" "region" :: [Sample.lost_pivot])
      Sample.frames world0 = (w', Ok pivots) /\
    Sample.reset_index
      (flatten_columns
         {| pv_columns := Index ["region"];
            pv_index := [ {| s_name := "region"; s_dtype := Object;
                             s_values := [VStr "east"; VStr "west"] |} ];
            pv_data := [(Object, [VStr "east"; VStr "west"])] |}) = Ok flat /\
    dict_get "same" pivots = Some flat.
Proof.
  assert (Hrun : exists w' pivots,
             build_pivots Sample.pivot_table Sample.reset_index
               ([Sample.by_region "same" "sales_q1" "amount"]
                ++ Sample.by_region "same" "sales_q1" "region" :: [Sample.lost_pivot])
               Sample.frames world0 = (w', Ok pivots)).
  { eexists _, _. vm_compute. reflexivity. }
  destruct Hrun as (w' & pivots & Hrun).
  destruct (build_pivots_last_name_wins Sample.pivot_table Sample.reset_index
              [Sample.by_region "same" "sales_q1" "amount"] [Sample.lost_pivot]
              (Sample.by_region "same" "sales_q1" "region") Sample.frames world0 w' pivots)
    as (k & df & pivot & flat & Hsrc & Hdf & Hpt & Hri & Hget).
  - vm_compute. reflexivity.
  - intros q Hq. apply list_elem_of_singleton in Hq as ->. vm_compute. discriminate.
  - exact Hrun.
  - injection Hsrc as <-. vm_compute in Hdf. injection Hdf as <-.
    vm_compute in Hpt. injection Hpt as <-.
    exists w', pivots, flat. auto.
Defined.

(** ** Reading a source *)

Section ReadProperties.

Context (pandas_read : read_call -> res DataFrame).

Lemma supported_cases (path : Path) :
  supported path = true ->
  Py.lower (suffix path) = ".csv" \/ Py.lower (suffix path) = ".tsv" \/
  Py.lower (suffix path) = ".json" \/ Py.lower (suffix path) = ".parquet".
Proof.
  unfold supported, SUPPORTED_EXTS. intros H. apply bool_decide_eq_true in H.
  repeat (apply elem_of_cons in H as [H | H]; [tauto |]). inversion H.
Qed.

Lemma read_frame_unsupported (path : Path) (date_cols : option (list string)) :
  supported path = false ->
  read_frame pandas_read path date_cols
  = Raise (ValueError ("Unsupported file extension: " +:+ Py.lower (suffix path))).
Proof.
  unfold supported, SUPPORTED_EXTS, read_frame. intros H.
  apply bool_decide_eq_false in H.
  set (ext := Py.lower (suffix path)) in *.
  destruct (String.eqb_spec ext ".csv") as [Heq | _];
    [exfalso; apply H; rewrite Heq; set_solver |].
  destruct (String.eqb_spec ext ".tsv") as [Heq | _];
    [exfalso; apply H; rewrite Heq; set_solver |].
  destruct (String.eqb_spec ext ".json") as [Heq | _];
    [exfalso; apply H; rewrite Heq; set_solver |].
  destruct (String.eqb_spec ext ".parquet") as [Heq | _];
    [exfalso; apply H; rewrite Heq; set_solver |].
  reflexivity.
Qed.

(** X16.  [read_frame] chooses the reader by the extension with its case
    ignored.  Any other extension raises [ValueError] naming the lower-cased
    extension, and no reader is called.  The date-column hint reaches only
    the CSV and TSV readers, an empty hint counting as none; JSON and
    parquet files are read the same with or without it. *)
Theorem read_frame_dispatch (path : Path) (date_cols : option (list string)) :
  (supported path = false ->
   read_frame pandas_read path date_cols
   = Raise (ValueError ("Unsupported file extension: " +:+ Py.lower (suffix path)))) /\
  (Py.lower (suffix path) = ".csv" ->
   read_frame pandas_read path date_cols
   = pandas_read (ReadCsv path None (or_true date_cols))) /\
  (Py.lower (suffix path) = ".tsv" ->
   read_frame pandas_read path date_cols
   = pandas_read (ReadCsv path (Some (String (Py.chr 9) "")) (or_true date_cols))) /\
  (Py.lower (suffix path) = ".json" ->
   read_frame pandas_read path date_cols = pandas_read (ReadJson path)) /\
  (Py.lower (suffix path) = ".parquet" ->
   read_frame pandas_read path date_cols = pandas_read (ReadParquet path)) /\
  read_frame pandas_read path (Some []) = read_frame pandas_read path None /\
  (supported path = true -> exists call, read_frame pandas_read path date_cols = pandas_read call).
Proof.
  split; [apply read_frame_unsupported |].
  repeat split.
  - intros H. unfold read_frame. now rewrite H.
  - intros H. unfold read_frame. now rewrite H.
  - intros H. unfold read_frame. now rewrite H.
  - intros H. unfold read_frame. now rewrite H.
  - intros H. apply supported_cases in H as [H | [H | [H | H]]];
      unfold read_frame; rewrite H; simpl; eauto.
Qed.

End ReadProperties.

Lemma read_frame_dispatch_witness :
  read_frame Sample.pandas_read {| stem := "notes"; suffix := ".XLS" |} None
  = Raise (ValueError "Unsupported file extension: .xls") /\
  read_frame Sample.pandas_read Sample.long_b (Some ["order_date"])
  = Sample.pandas_read (ReadCsv Sample.long_b None (Some ["order_date"])).
Proof.
  split.
  - exact (proj1 (read_frame_dispatch Sample.pandas_read
                    {| stem := "notes"; suffix := ".XLS" |} None) eq_refl).
  - exact (proj1 (proj2 (read_frame_dispatch Sample.pandas_read Sample.long_b
                           (Some ["order_date"]))) eq_refl).
Defined.

(** ** The registry and the outcome of a run *)

Section RunProperties.

Context (engine : list wcall -> wcall -> option exn)
        (pandas_read : read_call -> res DataFrame)
        (pivot_table : DataFrame -> PivotArgs -> res Pivot)
        (reset_index : Pivot -> res DataFrame).

Local Abbreviation load := (load_sources engine pandas_read).

Lemma dataset_name_length (p : Path) : (String.length (dataset_name p) <= 31)%nat.
Proof. unfold dataset_name. rewrite slice_to_length. lia. Qed.

Lemma load_sources_keys args cfg paths frames w w' frames' :
  load args cfg paths frames w = (w', Ok frames') ->
  forall k, is_Some (frames' !! k) <->
            is_Some (frames !! k) \/ exists p, p ∈ paths /\ dataset_name p = k.
Proof.
  revert frames w. induction paths as [| p rest IH]; intros frames w Hrun k.
  - injection Hrun as _ <-. split; [auto |].
    intros [H | (p & Hp & _)]; [exact H | inversion Hp].
  - simpl in Hrun.
    apply bind_ok_inv in Hrun as (w1 & df & _ & Hrun).
    apply bind_ok_inv in Hrun as (w2 & [] & _ & Hrun).
    rewrite (IH _ _ Hrun k). rewrite lookup_insert_is_Some. split.
    + intros [[<- | [_ H]] | (q & Hq & Hk)].
      * right. exists p. split; [left | reflexivity].
      * now left.
      * right. exists q. split; [now right | exact Hk].
    + intros [H | (q & Hq & Hk)].
      * destruct (decide (dataset_name p = k)); [left; now left | left; right; auto].
      * apply elem_of_cons in Hq as [-> | Hq]; [left; now left |].
        right. eauto.
Qed.

(** X17.  After a load that returns, the registry holds the datasets it
    held before and one for the truncated stem of every input, and nothing
    else; every key added has at most 31 characters; and an entry whose key
    is the truncated stem of no input is left as it was. *)
Theorem load_sources_registry (args : Args) (cfg : Config) (paths : list Path)
    (frames frames' : gmap string DataFrame) (w w' : World)
    (Hload : load args cfg paths frames w = (w', Ok frames')) :
  (forall k, is_Some (frames' !! k) <->
             is_Some (frames !! k) \/ exists p, p ∈ paths /\ dataset_name p = k) /\
  (forall k, (forall p, p ∈ paths -> dataset_name p <> k) -> frames' !! k = frames !! k) /\
  (forall p, p ∈ paths -> (String.length (dataset_name p) <= 31)%nat /\
                          is_Some (frames' !! dataset_name p)).
Proof.
  pose proof (load_sources_keys _ _ _ _ _ _ _ Hload) as Hkeys.
  split; [exact Hkeys |]. split.
  - intros k Hother. eapply load_sources_other; eassumption.
  - intros p Hp. split; [apply dataset_name_length |].
    apply Hkeys. right. eauto.
Qed.

Lemma load_sources_unsupported args cfg paths frames w (p : Path) :
  p ∈ paths -> supported p = false ->
  forall frames', snd (load args cfg paths frames w) <> Ok frames'.
Proof.
  revert frames w. induction paths as [| q rest IH]; intros frames w Hp Hext frames'.
  - inversion Hp.
  - simpl. unfold bind, lift.
    apply elem_of_cons in Hp as [<- | Hp].
    + rewrite read_frame_unsupported by exact Hext. discriminate.
    + destruct (read_frame pandas_read q _) as [df | e |]; try discriminate.
      destruct (write_df_to_sheet _ _ _ _ _ _ _ w) as [w1 [[] | e |]]; try discriminate.
      now apply IH.
Qed.

(** X18.  An input whose extension is not one of the four makes the run
    fail: [main] never returns, whatever the configuration and the other
    inputs.  When the inputs before it load, the failure is the [ValueError]
    that names its lower-cased extension, raised before it is given a sheet. *)
Theorem unsupported_input_fails (args : Args) (cfg : Config)
    (before after : list Path) (p : Path) (w : World)
    (Hext : supported p = false) :
  (forall rc,
     snd (main engine pandas_read pivot_table reset_index args cfg
            (before ++ p :: after) w) <> Ok rc) /\
  (forall frames w1 frames1,
     load args cfg before frames w = (w1, Ok frames1) ->
     load args cfg (before ++ p :: after) frames w
     = (w1, Raise (ValueError ("Unsupported file extension: "
                                 +:+ Py.lower (suffix p))))).
Proof.
  split.
  - intros rc.
    assert (Hcons : exists q qs, before ++ p :: after = q :: qs)
      by (destruct before; simpl; eauto).
    destruct Hcons as (q & qs & Hcons).
    assert (Hin : p ∈ q :: qs).
    { rewrite <- Hcons. apply elem_of_app. right. left. }
    rewrite Hcons. unfold main, bind.
    destruct (emit engine (ExcelWriter (arg_out args)) w) as [w1 [[] | e |]];
      try discriminate.
    pose proof (load_sources_unsupported args cfg (q :: qs) ∅ w1 p Hin Hext) as Hnever.
    destruct (load_sources engine pandas_read args cfg (q :: qs) ∅ w1)
      as [w2 [frames2 | e |]]; try discriminate.
    exfalso. apply (Hnever frames2). reflexivity.
  - intros frames w1 frames1 Hbefore.
    rewrite load_sources_app. unfold bind at 1. rewrite Hbefore.
    simpl. unfold bind, lift. now rewrite read_frame_unsupported by exact Hext.
Qed.

End RunProperties.

Lemma load_sources_registry_witness :
  exists w' frames',
    load_sources Sample.accept_all Sample.pandas_read Sample.args Sample.no_config
      [Sample.q1; Sample.long_a] ∅ world0 = (w', Ok frames') /\
    is_Some (frames' !! "sales_q1") /\
    frames' !! "quarterly_sales_report_northern_a" = None.
Proof.
  assert (Hload : exists w' frames',
             load_sources Sample.accept_all Sample.pandas_read Sample.args Sample.no_config
               [Sample.q1; Sample.long_a] ∅ world0 = (w', Ok frames')).
  { eexists _, _. vm_compute. reflexivity. }
  destruct Hload as (w' & frames' & Hload).
  pose proof (load_sources_registry _ _ _ _ _ _ _ _ _ Hload) as (Hkeys & Hother & Hin).
  exists w', frames'. split; [exact Hload |]. split.
  - apply (Hin Sample.q1). left.
  - rewrite Hother; [reflexivity |].
    intros p Hp. apply elem_of_cons in Hp as [-> | Hp]; [discriminate |].
    apply list_elem_of_singleton in Hp as ->. discriminate.
Defined.

Lemma unsupported_input_fails_witness :
  load_sources Sample.accept_all Sample.pandas_read Sample.args Sample.no_config
    ([] ++ {| stem := "notes"; suffix := ".XLS" |} :: [Sample.q1]) ∅ world0
  = (world0, Raise (ValueError "Unsupported file extension: .xls")).
Proof.
  exact (proj2 (unsupported_input_fails Sample.accept_all Sample.pandas_read
                  Sample.pivot_table Sample.reset_index Sample.args Sample.no_config
                  [] [Sample.q1] {| stem := "notes"; suffix := ".XLS" |} world0 eq_refl)
           ∅ world0 ∅ eq_refl).
Defined.

(** ** When the workbook is closed *)

Global Instance extends_without_preorder (c : wcall) : PreOrder (extends_without c).
Proof.
  split.
  - intros b. exists []. split; [now rewrite app_nil_r | apply not_elem_of_nil].
  - intros b1 b2 b3 (l1 & -> & H1) (l2 & -> & H2).
    exists (l1 ++ l2). split; [now rewrite app_assoc |].
    rewrite elem_of_app. tauto.
Qed.

Lemma emit_without engine (c avoided : wcall) :
  c <> avoided -> preserves book (extends_without avoided) (emit engine c).
Proof.
  intros Hne w w' r. unfold emit. destruct (engine (book w) c).
  - intros [= <- _]. reflexivity.
  - intros [= <- _]. simpl. exists [c]. split; [reflexivity |].
    rewrite list_elem_of_singleton. congruence.
Qed.

Lemma print_err_without avoided line :
  preserves book (extends_without avoided) (print_err line).
Proof. intros w w' r [= <- _]. reflexivity. Qed.

Lemma emit_stdout engine c : preserves stdout eq (emit engine c).
Proof.
  intros w w' r. unfold emit. destruct (engine (book w) c); now intros [= <- _].
Qed.

Lemma print_err_stdout line : preserves stdout eq (print_err line).
Proof. now intros w w' r [= <- _]. Qed.

Section CloseProperties.

Context (engine : list wcall -> wcall -> option exn)
        (pandas_read : read_call -> res DataFrame)
        (pivot_table : DataFrame -> PivotArgs -> res Pivot)
        (reset_index : Pivot -> res DataFrame).

Lemma write_df_to_sheet_keeps {S} (proj : World -> S) (R : S -> S -> Prop) `{!PreOrder R}
    df sheet_name make_table style autofilter freeze :
  (forall c, c <> Close -> preserves proj R (emit engine c)) ->
  preserves proj R
    (write_df_to_sheet engine df sheet_name make_table style autofilter freeze).
Proof.
  intros Hemit. unfold write_df_to_sheet.
  repeat first
    [ apply preserves_bind; [typeclasses eauto | | intros ?]
    | apply preserves_for_each; [typeclasses eauto | intros [? ?]]
    | apply preserves_ret; typeclasses eauto
    | apply Hemit; discriminate
    | match goal with
      | |- preserves _ _ (if ?b then _ else _) => destruct b
      end ].
Qed.

Lemma add_chart_from_table_keeps {S} (proj : World -> S) (R : S -> S -> Prop)
    `{!PreOrder R} sheet_name range kind title :
  (forall c, c <> Close -> preserves proj R (emit engine c)) ->
  preserves proj R (add_chart_from_table engine sheet_name range kind title).
Proof.
  intros Hemit. unfold add_chart_from_table.
  repeat first
    [ apply preserves_bind; [typeclasses eauto | | intros ?]
    | apply preserves_ret; typeclasses eauto
    | apply preserves_lift; typeclasses eauto
    | apply Hemit; discriminate
    | match goal with
      | |- preserves _ _ (if ?b then _ else _) => destruct b
      | |- preserves _ _ (match ?x with _ => _ end) => destruct x
      end ].
Qed.

Lemma load_sources_keeps {S} (proj : World -> S) (R : S -> S -> Prop) `{!PreOrder R}
    args cfg paths frames :
  (forall c, c <> Close -> preserves proj R (emit engine c)) ->
  preserves proj R (load_sources engine pandas_read args cfg paths frames).
Proof.
  intros Hemit. revert frames. induction paths as [| p rest IH]; intros frames; simpl.
  - apply preserves_ret; typeclasses eauto.
  - apply preserves_bind; [typeclasses eauto | apply preserves_lift; typeclasses eauto |].
    intros df. apply preserves_bind; [typeclasses eauto | | intros _; apply IH].
    now apply write_df_to_sheet_keeps.
Qed.

Lemma build_pivots_from_keeps {S} (proj : World -> S) (R : S -> S -> Prop) `{!PreOrder R}
    specs frames pivots :
  (forall line, preserves proj R (print_err line)) ->
  preserves proj R (build_pivots_from pivot_table reset_index specs frames pivots).
Proof.
  intros Hprint. revert pivots. induction specs as [| p rest IH]; intros pivots; simpl.
  - apply preserves_ret; typeclasses eauto.
  - destruct (p_source p ≫= _).
    + apply preserves_bind; [typeclasses eauto | apply preserves_lift; typeclasses eauto |].
      intros pivot.
      apply preserves_bind; [typeclasses eauto | apply preserves_lift; typeclasses eauto |].
      intros flat. apply IH.
    + apply preserves_bind; [typeclasses eauto | apply Hprint | intros _; apply IH].
Qed.

Lemma write_pivots_keeps {S} (proj : World -> S) (R : S -> S -> Prop) `{!PreOrder R}
    (pivots : list (string * DataFrame)) :
  (forall c, c <> Close -> preserves proj R (emit engine c)) ->
  preserves proj R (for_each (write_pivot engine) pivots).
Proof.
  intros Hemit. apply preserves_for_each; [typeclasses eauto |].
  intros [piv_name piv_df]. unfold write_pivot.
  apply preserves_bind; [typeclasses eauto | now apply write_df_to_sheet_keeps |].
  intros _.
  apply preserves_bind; [typeclasses eauto | apply preserves_lift; typeclasses eauto |].
  intros range. now apply add_chart_from_table_keeps.
Qed.

(** The stage of [main] between opening and closing the workbook. *)
Lemma pivot_stage_keeps {S} (proj : World -> S) (R : S -> S -> Prop) `{!PreOrder R}
    (cfg : Config) (frames : gmap string DataFrame) :
  (forall c, c <> Close -> preserves proj R (emit engine c)) ->
  (forall line, preserves proj R (print_err line)) ->
  preserves proj R
    (match cfg_pivots cfg with
     | Some ((_ :: _) as summary_cfg) =>
         pivots <~ build_pivots pivot_table reset_index summary_cfg frames ;;
         for_each (write_pivot engine) pivots
     | _ => ret tt
     end).
Proof.
  intros Hemit Hprint.
  destruct (cfg_pivots cfg) as [[| p specs] |]; try (apply preserves_ret; typeclasses eauto).
  apply preserves_bind; [typeclasses eauto | | intros pivots; now apply write_pivots_keeps].
  unfold build_pivots. now apply build_pivots_from_keeps.
Qed.

End CloseProperties.

Section MainOutcome.

Context (engine : list wcall -> wcall -> option exn)
        (pandas_read : read_call -> res DataFrame)
        (pivot_table : DataFrame -> PivotArgs -> res Pivot)
        (reset_index : Pivot -> res DataFrame).

Local Abbreviation run := (main engine pandas_read pivot_table reset_index).

Lemma bind_inv {A B} (m : M A) (k : A -> M B) w w' (r : res B) :
  bind m k w = (w', r) ->
  exists w1 r1,
    m w = (w1, r1) /\
    match r1 with
    | Ok a => k a w1 = (w', r)
    | Raise e => w' = w1 /\ r = Raise e
    | Diverges => w' = w1 /\ r = Diverges
    end.
Proof.
  unfold bind. destruct (m w) as [w1 [a | e |]]; intros H; exists w1; eexists;
    (split; [reflexivity |]); simpl; [exact H | now injection H..].
Qed.

Lemma emit_no_close (c : wcall) :
  c <> Close -> preserves book (extends_without Close) (emit engine c).
Proof. apply emit_without. Qed.

Lemma emit_keeps_stdout (c : wcall) : c <> Close -> preserves stdout eq (emit engine c).
Proof. intros _. apply emit_stdout. Qed.

(** X19.  Without inputs [main] returns 2 after one line on the standard
    output, the workbook untouched.  With inputs it returns only 0, and then
    the workbook was opened first and closed last, closed once, and the last
    line printed names the output file.  A run that does not return has not
    closed the workbook. *)
Theorem main_outcomes (args : Args) (cfg : Config) (q : Path) (qs : list Path)
    (w w' : World) (r : res Z)
    (Hrun : run args cfg (q :: qs) w = (w', r)) :
  run args cfg [] w
    = ({| book := book w; stderr := stderr w;
          stdout := stdout w ++ ["No input files found."] |}, Ok 2) /\
  (forall rc, r = Ok rc ->
     rc = 0 /\
     (exists calls,
        book w' = book w ++ ExcelWriter (arg_out args) :: calls ++ [Close] /\
        Close ∉ calls) /\
     stdout w' = stdout w ++ ["Wrote " +:+ arg_out args]) /\
  ((forall rc, r <> Ok rc) -> extends_without Close (book w) (book w')).
Proof.
  split; [reflexivity |].
  unfold main in Hrun.
  apply bind_inv in Hrun as (w1 & r1 & Hopen & Hrun).
  pose proof (emit_no_close (ExcelWriter (arg_out args)) ltac:(discriminate) _ _ _ Hopen)
    as Hb1.
  destruct r1 as [[] | e |];
    [| destruct Hrun as [-> ->]; split; [discriminate | now intros _]..].
  apply bind_inv in Hrun as (w2 & r2 & Hload & Hrun).
  pose proof (load_sources_keeps engine pandas_read book (extends_without Close)
                _ _ _ _ emit_no_close _ _ _ Hload) as Hb2.
  pose proof (load_sources_keeps engine pandas_read stdout eq
                _ _ _ _ emit_keeps_stdout _ _ _ Hload) as Ho2.
  destruct r2 as [frames | e |];
    [| destruct Hrun as [-> ->]; split;
       [discriminate | intros _; now transitivity (book w1)]..].
  apply bind_inv in Hrun as (w3 & r3 & Hstage & Hrun).
  pose proof (pivot_stage_keeps engine pivot_table reset_index book (extends_without Close)
                cfg frames emit_no_close (print_err_without Close) _ _ _ Hstage) as Hb3.
  pose proof (pivot_stage_keeps engine pivot_table reset_index stdout eq
                cfg frames emit_keeps_stdout print_err_stdout _ _ _ Hstage) as Ho3.
  assert (Hb13 : extends_without Close (book w1) (book w3)) by now transitivity (book w2).
  destruct r3 as [[] | e |];
    [| destruct Hrun as [-> ->]; split;
       [discriminate | intros _; now transitivity (book w1)]..].
  unfold emit in Hopen. destruct (engine (book w) (ExcelWriter (arg_out args)));
    [discriminate |]. injection Hopen as <-. simpl in *.
  unfold bind, emit, print_out, ret in Hrun.
  destruct (engine (book w3) Close) as [e |].
  - injection Hrun as <- <-. split; [discriminate |]. intros _.
    destruct Hb13 as (l & -> & Hl). exists (ExcelWriter (arg_out args) :: l).
    split; [now rewrite <- app_assoc |].
    rewrite elem_of_cons. intros [H | H]; [discriminate | contradiction].
  - injection Hrun as <- <-. split.
    + intros rc [= <-]. split; [reflexivity |]. split.
      * destruct Hb13 as (l & -> & Hl). exists l. simpl.
        split; [now rewrite <- !app_assoc | exact Hl].
      * simpl. congruence.
    + intros Hnot. exfalso. now apply (Hnot 0).
Qed.

End MainOutcome.

Lemma main_outcomes_witness :
  exists w',
    main Sample.accept_all Sample.pandas_read Sample.pivot_table Sample.reset_index
      Sample.args Sample.no_config [Sample.q1] world0 = (w', Ok 0) /\
    stdout w' = ["Wrote report.xlsx"].
Proof.
  assert (Hrun : exists w',
             main Sample.accept_all Sample.pandas_read Sample.pivot_table
               Sample.reset_index Sample.args Sample.no_config [Sample.q1] world0
             = (w', Ok 0)).
  { eexists. vm_compute. reflexivity. }
  destruct Hrun as (w' & Hrun). exists w'. split; [exact Hrun |].
  pose proof (main_outcomes _ _ _ _ _ _ _ _ _ _ _ Hrun) as (_ & Hok & _).
  destruct (Hok 0 eq_refl) as (_ & _ & Hout). exact Hout.
Defined.

(** ** Date-column hints *)

Lemma date_cols_for_none (name : string) (sources : list SourceHint) :
  (forall s, s ∈ sources -> sh_name s <> Some name) ->
  date_cols_for name sources = None.
Proof.
  induction sources as [| s rest IH]; intros Hno; [reflexivity |].
  simpl. destruct (sh_name s) as [n |] eqn:Hn.
  - destruct (sh_date_cols s) as [[| c l] |];
      try (apply IH; intros t Ht; apply Hno; now right).
    destruct (String.eqb_spec n name) as [-> | _].
    + exfalso. apply (Hno s); [left | exact Hn].
    + apply IH. intros t Ht. apply Hno. now right.
  - apply IH. intros t Ht. apply Hno. now right.
Qed.

(** X20.  The date columns used for a dataset are those of the first hint
    that carries the dataset's name and a non-empty list: the answer is never
    an empty list, hints with another name or without date columns are passed
    over, and a hint whose name is longer than 31 characters matches no input
    at all, since the name compared is the truncated stem. *)
Theorem date_cols_for_rules (name : string) (sources earlier later : list SourceHint)
    (hint : SourceHint) (cols : list string) (p : Path) :
  (date_cols_for name sources = Some cols ->
   cols <> [] /\
   exists s, s ∈ sources /\ sh_name s = Some name /\ sh_date_cols s = Some cols) /\
  ((forall s, s ∈ earlier ->
      sh_name s <> Some name \/ sh_date_cols s = None \/ sh_date_cols s = Some []) ->
   sh_name hint = Some name -> sh_date_cols hint = Some cols -> cols <> [] ->
   date_cols_for name (earlier ++ hint :: later) = Some cols) /\
  ((forall s n, s ∈ sources -> sh_name s = Some n -> (31 < String.length n)%nat) ->
   date_cols_for (dataset_name p) sources = None).
Proof.
  split; [| split].
  - induction sources as [| s rest IH]; [discriminate |].
    simpl. intros Hfound.
    assert (Hrest : date_cols_for name rest = Some cols ->
                    cols <> [] /\
                    exists t, t ∈ s :: rest /\ sh_name t = Some name /\
                              sh_date_cols t = Some cols).
    { intros H. destruct (IH H) as (Hne & t & Ht & Htn & Htc).
      split; [exact Hne |]. exists t. split; [now right | auto]. }
    destruct (sh_name s) as [n |] eqn:Hn; [| auto].
    destruct (sh_date_cols s) as [[| c l] |] eqn:Hc; [auto | | auto].
    destruct (String.eqb_spec n name) as [-> | _]; [| auto].
    injection Hfound as <-. split; [discriminate |].
    exists s. split; [left | auto].
  - intros Hearlier Hn Hc Hne.
    induction earlier as [| s rest IH]; simpl.
    + rewrite Hn, Hc. destruct cols as [| c l]; [contradiction |].
      now rewrite String.eqb_refl.
    + assert (Hrest : date_cols_for name (rest ++ hint :: later) = Some cols).
      { apply IH. intros t Ht. apply Hearlier. now right. }
      destruct (Hearlier s ltac:(left)) as [Hs | [Hs | Hs]].
      * destruct (sh_name s) as [n |]; [| exact Hrest].
        destruct (sh_date_cols s) as [[| c l] |]; try exact Hrest.
        destruct (String.eqb_spec n name) as [-> | _]; [congruence | exact Hrest].
      * rewrite Hs. destruct (sh_name s); exact Hrest.
      * rewrite Hs. destruct (sh_name s); exact Hrest.
  - intros Hlong. apply date_cols_for_none.
    intros s Hs Hn. specialize (Hlong s _ Hs Hn).
    pose proof (dataset_name_length p). lia.
Qed.

Lemma date_cols_for_rules_witness :
  date_cols_for "sales_q1"
    ([ {| sh_name := Some "sales_q1"; sh_date_cols := Some [] |} ]
     ++ {| sh_name := Some "sales_q1"; sh_date_cols := Some ["order_date"] |} :: [])
  = Some ["order_date"] /\
  date_cols_for (dataset_name Sample.long_a)
    [ {| sh_name := Some (stem Sample.long_a); sh_date_cols := Some ["order_date"] |} ]
  = None.
Proof.
  pose proof (date_cols_for_rules "sales_q1"
                [ {| sh_name := Some (stem Sample.long_a);
                     sh_date_cols := Some ["order_date"] |} ]
                [ {| sh_name := Some "sales_q1"; sh_date_cols := Some [] |} ] []
                {| sh_name := Some "sales_q1"; sh_date_cols := Some ["order_date"] |}
                ["order_date"] Sample.long_a) as (_ & Hfirst & Hlong).
  split.
  - apply Hfirst; try reflexivity; [| discriminate].
    intros s Hs. apply list_elem_of_singleton in Hs as ->. right. right. reflexivity.
  - apply Hlong. intros s n Hs Hn. apply list_elem_of_singleton in Hs as ->.
    injection Hn as <-. vm_compute. lia.
Defined.

(** ** Gathering the inputs *)

Section GatherProperties.

Context (engine : list wcall -> wcall -> option exn)
        (pandas_read : read_call -> res DataFrame)
        (pivot_table : DataFrame -> PivotArgs -> res Pivot)
        (reset_index : Pivot -> res DataFrame)
        (as_path : string -> Path)
        (is_dir is_file : string -> bool)
        (glob_sorted : string -> string -> list Path)
        (ext_order : list string).

Local Abbreviation gather_from :=
  (gather_inputs_from as_path is_dir is_file glob_sorted ext_order).
Local Abbreviation expand := (expand_input as_path is_dir is_file glob_sorted ext_order).
Local Abbreviation missing := (missing_input is_dir is_file).

Lemma gather_inputs_from_result (inputs : list string) (paths : list Path) (w : World) :
  gather_from inputs paths w
  = ({| book := book w;
        stderr := stderr w ++ map input_warning (filter (fun i => missing i = true) inputs);
        stdout := stdout w |},
     Ok (paths ++ concat (map expand inputs))).
Proof.
  revert paths w. induction inputs as [| inp rest IH]; intros paths w.
  - simpl. rewrite !app_nil_r. now destruct w.
  - simpl. unfold expand_input at 1, missing_input at 1.
    destruct (is_dir inp) eqn:Hd; [| destruct (is_file inp) eqn:Hf].
    + rewrite IH. rewrite filter_cons_False by (unfold missing_input; rewrite Hd; discriminate).
      now rewrite <- app_assoc.
    + rewrite IH.
      rewrite filter_cons_False by (unfold missing_input; rewrite Hd, Hf; discriminate).
      now rewrite <- app_assoc.
    + unfold bind, print_err. rewrite IH. simpl.
      rewrite filter_cons_True by (unfold missing_input; now rewrite Hd, Hf).
      simpl. now rewrite <- app_assoc.
Qed.

Lemma gather_inputs_facts (inputs : list string) (w : World) :
  gather_inputs as_path is_dir is_file glob_sorted ext_order inputs w
  = ({| book := book w;
        stderr := stderr w ++ map input_warning (filter (fun i => missing i = true) inputs);
        stdout := stdout w |},
     Ok (concat (map expand inputs))) /\
  (forall inp, inp ∈ inputs -> is_dir inp = false -> is_file inp = true ->
               as_path inp ∈ concat (map expand inputs)) /\
  (forall inp, concat (map expand [inp; inp]) = expand inp ++ expand inp) /\
  ((forall inp, inp ∈ inputs -> missing inp = true) -> concat (map expand inputs) = []).
Proof.
  split; [apply (gather_inputs_from_result inputs []) |]. split; [| split].
  - intros inp Hin Hd Hf. apply list_elem_of_In, in_concat.
    exists (expand inp). split.
    + apply in_map. now apply list_elem_of_In.
    + unfold expand_input. rewrite Hd, Hf. left. reflexivity.
  - intros inp. simpl. now rewrite app_nil_r.
  - intros Hall. induction inputs as [| inp rest IH]; [reflexivity |].
    simpl. rewrite IH by (intros i Hi; apply Hall; now right).
    specialize (Hall inp ltac:(left)). unfold missing_input in Hall.
    apply andb_true_iff in Hall as [Hd Hf]. apply negb_true_iff in Hd, Hf.
    unfold expand_input. now rewrite Hd, Hf.
Qed.


Lemma main_unsupported args cfg (before after : list Path) (p : Path) (w : World) :
  supported p = false ->
  forall rc,
    snd (main engine pandas_read pivot_table reset_index args cfg
           (before ++ p :: after) w) <> Ok rc.
Proof.
  intros Hext rc.
  assert (Hcons : exists q qs, before ++ p :: after = q :: qs)
    by (destruct before; simpl; eauto).
  destruct Hcons as (q & qs & Hcons).
  assert (Hin : p ∈ q :: qs).
  { rewrite <- Hcons. apply elem_of_app. right. left. }
  rewrite Hcons. unfold main, bind.
  destruct (emit engine (ExcelWriter (arg_out args)) w) as [w1 [[] | e |]];
    try discriminate.
  pose proof (load_sources_unsupported engine pandas_read args cfg (q :: qs) ∅ w1 p
                Hin Hext) as Hnever.
  destruct (load_sources engine pandas_read args cfg (q :: qs) ∅ w1)
    as [w2 [frames2 | e |]]; try discriminate.
  exfalso. apply (Hnever frames2). reflexivity.
Qed.

Local Abbreviation run_inputs :=
  (main_from_inputs engine pandas_read pivot_table reset_index
     as_path is_dir is_file glob_sorted ext_order).

(** X22.  From the command line: when none of the inputs exists, the run
    prints one warning for each, then "No input files found.", returns 2 and
    leaves the workbook untouched.  When one of the inputs is a file whose
    extension is not supported, the run never returns. *)
Theorem main_from_inputs_outcomes (args : Args) (cfg : Config) (inputs : list string)
    (w : World) :
  ((forall inp, inp ∈ inputs -> missing inp = true) ->
   run_inputs args cfg inputs w
   = ({| book := book w;
         stderr := stderr w ++ map input_warning inputs;
         stdout := stdout w ++ ["No input files found."] |}, Ok 2)) /\
  (forall inp, inp ∈ inputs -> is_dir inp = false -> is_file inp = true ->
               supported (as_path inp) = false ->
               forall rc, snd (run_inputs args cfg inputs w) <> Ok rc).
Proof.
  destruct (gather_inputs_facts inputs w) as (Hgather & Hfile & _ & Hnone).
  split.
  - intros Hall.
    assert (Hfilter : filter (fun i => missing i = true) inputs = inputs).
    { clear -Hall. induction inputs as [| inp rest IH]; [reflexivity |].
      rewrite filter_cons_True by (apply Hall; left).
      f_equal. apply IH. intros i Hi. apply Hall. now right. }
    unfold main_from_inputs, bind. rewrite Hgather, (Hnone Hall), Hfilter.
    reflexivity.
  - intros inp Hin Hd Hf Hext rc.
    specialize (Hfile inp Hin Hd Hf).
    unfold main_from_inputs, bind. rewrite Hgather.
    apply list_elem_of_split in Hfile as (before & after & ->).
    now apply main_unsupported.
Qed.

End GatherProperties.


Lemma main_from_inputs_outcomes_witness :
  main_from_inputs Sample.accept_all Sample.pandas_read Sample.pivot_table
    Sample.reset_index SampleFiles.as_path SampleFiles.is_dir SampleFiles.is_file
    SampleFiles.glob_sorted SampleFiles.ext_order Sample.args Sample.no_config
    ["gone.csv"; "old"] world0
  = ({| book := [];
        stderr := ["[warn] input not found: gone.csv"; "[warn] input not found: old"];
        stdout := ["No input files found."] |}, Ok 2) /\
  (forall rc,
     snd (main_from_inputs Sample.accept_all Sample.pandas_read Sample.pivot_table
            Sample.reset_index SampleFiles.as_path SampleFiles.is_dir SampleFiles.is_file
            SampleFiles.glob_sorted SampleFiles.ext_order Sample.args Sample.no_config
            ["data"; "notes.XLS"] world0) <> Ok rc).
Proof.
  split.
  - refine (proj1 (main_from_inputs_outcomes Sample.accept_all Sample.pandas_read
                     Sample.pivot_table Sample.reset_index SampleFiles.as_path
                     SampleFiles.is_dir SampleFiles.is_file SampleFiles.glob_sorted
                     SampleFiles.ext_order Sample.args Sample.no_config
                     ["gone.csv"; "old"] world0) _).
    intros inp Hin. apply elem_of_cons in Hin as [-> | Hin]; [reflexivity |].
    apply list_elem_of_singleton in Hin as ->. reflexivity.
  - refine (proj2 (main_from_inputs_outcomes Sample.accept_all Sample.pandas_read
                     Sample.pivot_table Sample.reset_index SampleFiles.as_path
                     SampleFiles.is_dir SampleFiles.is_file SampleFiles.glob_sorted
                     SampleFiles.ext_order Sample.args Sample.no_config
                     ["data"; "notes.XLS"] world0) "notes.XLS" _ _ _ _);
      [right; left | reflexivity..].
Defined.

Lemma flatten_columns_shape_witness :
  flatten_columns
    {| pv_columns := Index ["amount"]; pv_index := []; pv_data := [(Int, [VInt 1])] |}
  = {| pv_columns := Index ["amount"]; pv_index := []; pv_data := [(Int, [VInt 1])] |}.
Proof.
  exact (proj1 (proj2 (proj2 (flatten_columns_shape
           {| pv_columns := Index ["amount"]; pv_index := [];
              pv_data := [(Int, [VInt 1])] |}))) ["amount"] eq_refl).
Defined.

(** ** Width of a column, cells or not *)

(** X23.  The header alone sets a floor under the width: the width is at
    least the header length plus 2, or the cap when that is smaller.  It is
    exactly that for a column without rows, and for any column none of whose
    cells is longer than the header. *)
Theorem best_width_header_floor (series : Series) (max_width : Z) :
  Z.min (Py.len (s_name series) + 2) max_width <= best_width series max_width /\
  (s_values series = [] ->
   best_width series max_width = Z.min (Py.len (s_name series) + 2) max_width) /\
  ((forall v, v ∈ s_values series -> Py.len (astype_str v) <= Py.len (s_name series)) ->
   best_width series max_width = Z.min (Py.len (s_name series) + 2) max_width).
Proof.
  rewrite best_width_lengths.
  pose proof (py_max_lower (Py.len (s_name series))
                (map (fun v => Py.len (astype_str v)) (s_values series))) as Hlow.
  split; [lia |]. split.
  - intros ->. reflexivity.
  - intros Hshort.
    pose proof (py_max_attained (Py.len (s_name series))
                  (map (fun v => Py.len (astype_str v)) (s_values series))) as Hin.
    apply elem_of_cons in Hin as [Heq | Hin]; [now rewrite Heq |].
    apply list_elem_of_fmap in Hin as (v & Hv & Hvin).
    specialize (Hshort v Hvin). lia.
Qed.

Lemma best_width_header_floor_witness :
  best_width {| s_name := "order_date"; s_dtype := Object; s_values := [] |} 60 = 12 /\
  best_width {| s_name := "region"; s_dtype := Object;
                s_values := [VStr "east"; VStr "west"] |} 60 = 8.
Proof.
  split.
  - rewrite (proj1 (proj2 (best_width_header_floor
               {| s_name := "order_date"; s_dtype := Object; s_values := [] |} 60)) eq_refl).
    reflexivity.
  - rewrite (proj2 (proj2 (best_width_header_floor
               {| s_name := "region"; s_dtype := Object;
                  s_values := [VStr "east"; VStr "west"] |} 60))).
    + reflexivity.
    + intros v Hv. apply elem_of_cons in Hv as [-> | Hv]; [vm_compute; discriminate |].
      apply list_elem_of_singleton in Hv as ->. vm_compute. discriminate.
Defined.

(** ** The calls of a whole load and of a pivot sheet *)

Section TraceProperties.

Context (engine : list wcall -> wcall -> option exn)
        (pandas_read : read_call -> res DataFrame).

(** X24.  A load that returns has read every input, in order, with the date
    columns hinted for its truncated stem, and has made for each input, in
    the same order, exactly the calls of one sheet named by the prefix and
    the truncated stem, with the table, autofilter and freeze options of the
    command line and the table style of the configuration; nothing was
    printed. *)
Theorem load_sources_calls (args : Args) (cfg : Config) (paths : list Path)
    (frames frames' : gmap string DataFrame) (w w' : World)
    (Hload : load_sources engine pandas_read args cfg paths frames w = (w', Ok frames')) :
  exists dfs,
    Forall2 (fun p df =>
               read_frame pandas_read p
                 (date_cols_for (dataset_name p) (default [] (cfg_sources cfg))) = Ok df)
            paths dfs /\
    book w' = book w ++
      concat (zip_with
                (fun p df =>
                   sheet_calls df (source_sheet_name (arg_sheet_prefix args) p)
                     (negb (arg_no_table args))
                     (default "Table Style Light 9" (cfg_table_style cfg))
                     (negb (arg_no_autofilter args)) (negb (arg_no_freeze args)))
                paths dfs) /\
    stdout w' = stdout w /\ stderr w' = stderr w.
Proof.
  revert frames w Hload. induction paths as [| p rest IH]; intros frames w Hload.
  - injection Hload as <- _. exists []. split; [constructor |].
    simpl. now rewrite app_nil_r.
  - simpl in Hload.
    apply bind_ok_inv in Hload as (w1 & df & Hread & Hload).
    apply lift_ok_inv in Hread as [Hread ->].
    apply bind_ok_inv in Hload as (w2 & [] & Hwrite & Hload).
    apply write_df_to_sheet_trace in Hwrite as (Hb & He & Ho).
    apply IH in Hload as (dfs & Hall & Hb' & Ho' & He').
    exists (df :: dfs). split; [now constructor |].
    simpl. rewrite Hb', Hb, <- app_assoc. split; [reflexivity |]. split; congruence.
Qed.


End TraceProperties.

Lemma load_sources_calls_witness :
  exists w' frames' dfs,
    load_sources Sample.accept_all Sample.pandas_read Sample.args Sample.no_config
      [Sample.q1; Sample.long_b] ∅ world0 = (w', Ok frames') /\
    length dfs = 2%nat /\
    book w' = book world0 ++
      concat (zip_with
                (fun p df => sheet_calls df (source_sheet_name "Q1 " p) true
                               "Table Style Light 9" true true)
                [Sample.q1; Sample.long_b] dfs).
Proof.
  assert (Hload : exists w' frames',
             load_sources Sample.accept_all Sample.pandas_read Sample.args Sample.no_config
               [Sample.q1; Sample.long_b] ∅ world0 = (w', Ok frames')).
  { eexists _, _. vm_compute. reflexivity. }
  destruct Hload as (w' & frames' & Hload).
  destruct (load_sources_calls _ _ _ _ _ _ _ _ _ Hload) as (dfs & Hall & Hbook & _).
  exists w', frames', dfs. split; [exact Hload |]. split; [| exact Hbook].
  apply Forall2_length in Hall. now rewrite <- Hall.
Defined.

